(** * SlackBot (src/slack.js): a shallow embedding and its properties

    The bot posts a root message, treats the replies in that message's thread
    as player input and, on the command DRAW, deals a card that the player
    does not hold yet, at most once per cooldown window.

    The embedding follows [src/slack.js] method by method.  The asynchronous
    methods become computations in a small monad that threads the state of
    the bot and of its collaborators, may raise a JavaScript exception, and
    writes down every effect it performs, in order. *)

From Stdlib Require Import String Ascii NArith ZArith Lia List.
From stdpp Require Import gmap strings list.
Import ListNotations.
Open Scope string_scope.

(** ** JavaScript values *)

(** The values that travel through the key-value store: the boolean cooldown
    marker, card identifiers (strings), arrays of them, and the two empty
    values. *)
#[warnings="-register-all"]
Inductive value : Type :=
  | VUndefined
  | VNull
  | VBool (b : bool)
  | VStr (s : string)
  | VArr (elems : list value).

(** [if (v)]: undefined, null, false and the empty string are falsy; every
    array is truthy. *)
Definition truthy (v : value) : bool :=
  match v with
  | VUndefined | VNull => false
  | VBool b => b
  | VStr s => negb (String.eqb s EmptyString)
  | VArr _ => true
  end.

(** An absent result ([undefined]) is falsy. *)
Definition truthy_opt (o : option value) : bool :=
  match o with
  | Some v => truthy v
  | None => false
  end.

(** A string used as a condition: [null], [undefined] ([None]) and the empty
    string are falsy. *)
Definition truthy_str (o : option string) : bool :=
  match o with
  | Some s => negb (String.eqb s EmptyString)
  | None => false
  end.

(** SameValueZero, the comparison of [Array.prototype.includes].  Two arrays
    are the same only when they are the same object; the value searched for
    is always a fresh string here, so an array is never the same as it. *)
Definition same_value_zero (a b : value) : bool :=
  match a, b with
  | VUndefined, VUndefined => true
  | VNull, VNull => true
  | VBool x, VBool y => Bool.eqb x y
  | VStr x, VStr y => String.eqb x y
  | _, _ => false
  end.

(** [arr.includes(x)] *)
Definition includes (arr : list value) (x : value) : bool :=
  existsb (fun y => same_value_zero y x) arr.

(** [arr[i]] for a number [i]: [undefined] ([None]) out of range. *)
Definition array_get {A : Type} (arr : list A) (i : Z) : option A :=
  if (i <? 0)%Z then None else nth_error arr (Z.to_nat i).

(** String conversion of a card identifier that may be [undefined], as in
    ['cards.' + randomCard] and in [allCards[randomCard]]. *)
Definition key_to_string (k : option string) : string :=
  match k with
  | Some s => s
  | None => "undefined"
  end.

(** The value pushed on the hand. *)
Definition key_to_value (k : option string) : value :=
  match k with
  | Some s => VStr s
  | None => VUndefined
  end.

(** ** Numbers *)

(** What [Math.random()] returns: a binary64 number [u] with [0 <= u < 1].
    Every such number is a fraction [fr_numerator / 2 ^ fr_exponent] whose
    numerator fits in the 53 bits of a significand. *)
Record fraction : Type := {
  fr_numerator : N;
  fr_exponent : N
}.

Definition in_unit_interval (u : fraction) : Prop :=
  (fr_numerator u < 2 ^ 53)%N /\ (fr_numerator u < 2 ^ fr_exponent u)%N.

(** The rounding of binary64 arithmetic, on a natural number [p]: the nearest
    number that is written with 53 significant bits, and the one with an even
    significand when [p] lies half-way between two of them. *)
Definition round_to_53_bits (p : Z) : Z :=
  let k := (Z.log2 p - 52)%Z in
  if (k <=? 0)%Z then p
  else
    let q := (p / 2 ^ k)%Z in
    let r := (p mod 2 ^ k)%Z in
    let half := (2 ^ (k - 1))%Z in
    if ((half <? r)%Z || ((r =? half)%Z && Z.odd q))%bool
    then ((q + 1) * 2 ^ k)%Z
    else (q * 2 ^ k)%Z.

(** [Math.floor(u * n)] for the length [n] of an array.  The product is a
    binary64 number: the exact product [fr_numerator * n / 2 ^ fr_exponent]
    is rounded before [Math.floor] sees it.  (A product below the normal range
    is rounded more coarsely still, to a number well below 1: its floor is 0
    either way.) *)
Definition floor_of_product (u : fraction) (n : nat) : Z :=
  (round_to_53_bits (Z.of_N (fr_numerator u) * Z.of_nat n)
   / 2 ^ Z.of_N (fr_exponent u))%Z.

(** ** Strings

    A [string] is read as a sequence of code units below 256. *)

(** The white space and line terminators that [String.prototype.trim]
    strips, among the code units below 256: TAB, LF, VT, FF, CR, SP, NBSP. *)
Definition is_white_space (c : ascii) : bool :=
  let n := nat_of_ascii c in
  ((9 <=? n)%nat && (n <=? 13)%nat) || (n =? 32)%nat || (n =? 160)%nat.

Fixpoint trimStart (s : string) : string :=
  match s with
  | EmptyString => EmptyString
  | String c s' => if is_white_space c then trimStart s' else s
  end.

Fixpoint trimEnd (s : string) : string :=
  match s with
  | EmptyString => EmptyString
  | String c s' =>
      match trimEnd s' with
      | EmptyString => if is_white_space c then EmptyString else String c EmptyString
      | t => String c t
      end
  end.

(** [s.trim()] *)
Definition trim (s : string) : string := trimEnd (trimStart s).

Definition upper_ascii (c : ascii) : ascii :=
  let n := nat_of_ascii c in
  if ((97 <=? n)%nat && (n <=? 122)%nat)%bool then ascii_of_nat (n - 32) else c.

(** [s.toUpperCase()] on the letters a-z.  JavaScript also maps letters
    outside ASCII; none of them maps to a string made of the letters D, R, A
    and W only, so the single use of this function, the comparison with
    ['DRAW'], does not see the difference. *)
Fixpoint toUpperCase (s : string) : string :=
  match s with
  | EmptyString => EmptyString
  | String c s' => String (upper_ascii c) (toUpperCase s')
  end.

(** A string made of white space only. *)
Fixpoint all_white (s : string) : bool :=
  match s with
  | EmptyString => true
  | String c s' => is_white_space c && all_white s'
  end.

(** [s.startsWith(p)] *)
Definition startsWith (s p : string) : bool := String.prefix p s.

(** The line feed of the announcement's template literal. *)
Definition nl : string := String (ascii_of_nat 10) EmptyString.

(** ** Data model *)

(** [this.rootMessage], also the content of the file [.rootmessage]
    ([JSON.stringify] and [JSON.parse] are taken to round-trip the record). *)
Record RootMessage : Type := {
  root_channelId : string;
  root_messageTs : string
}.

(** A message event delivered by Slack. *)
Record InboundEvent : Type := {
  ev_channel : string;
  ev_thread_ts : option string;   (* undefined outside a thread *)
  ev_ts : string;
  ev_text : string;
  ev_user : string;
  ev_bot_id : option string       (* undefined for a human author *)
}.

(** The argument of [client.chat.postMessage]. *)
Record messageParams : Type := {
  mp_channel : string;
  mp_text : string;
  mp_thread_ts : option string;
  mp_username : option string
}.

(** What [client.chat.postMessage] resolves to. *)
Record postResult : Type := {
  res_channel : string;
  res_ts : string
}.

(** The argument of [client.reactions.add] and [client.reactions.remove]. *)
Record reactionParams : Type := {
  rp_method : string;
  rp_channel : string;
  rp_timestamp : string;
  rp_name : string
}.

(** A catalog entry of [transcript('cards')]. *)
Record Card : Type := {
  card_name : string;
  card_requirements : string
}.

(** Exceptions.  The message of a [TypeError] is the one of JavaScriptCore,
    the engine of Bun, which the program runs on ([Bun.file], [Bun.write]). *)
Inductive exn : Type :=
  | TypeError (msg : string)
  | GatewayError (msg : string)
  | IOError (msg : string).

(** The answer of the messaging gateway to one request, and the time in
    milliseconds that went by while the request was awaited. *)
Inductive postAnswer : Type :=
  | PostOk (r : postResult)
  | PostFail (e : exn).

Record postReply : Type := {
  elapsed : N;
  answer : postAnswer
}.

(** An entry of the key-value store: a value and the instant (milliseconds)
    at which it expires, if it does. *)
Record kvEntry : Type := {
  kv_value : value;
  kv_expires : option Z
}.

(** The effects a computation performs, written down in order.  [Later e] is
    an effect of a call whose promise is dropped: it happens at some later
    moment, which the place of the entry in the log does not tell. *)
Inductive effect : Type :=
  | ConsoleLog (label : string)
  | ConsoleError (label : string)
  | Post (p : messageParams) (r : postReply)
  | Reaction (p : reactionParams) (ok : bool)
  | KvGet (key : string) (found : option value)
  | KvSet (key : string) (v : value) (ttl : option Z)
  | MathRandom (u : fraction)
  | FileWrite (content : option RootMessage) (ok : bool)
  | Later (e : effect).

(** The state: the bot's mutable field, the file next to it (its content
    once the writes started so far have settled, in the order in which they
    were started), the key-value store, the clock, and the number of
    questions put to the outside world so far. *)
Record world : Type := {
  rootMessage : option RootMessage;
  rootfile : option RootMessage;
  kv_store : gmap string kvEntry;
  clock : Z;
  steps : nat
}.

Definition set_rootMessage (r : option RootMessage) (w : world) : world :=
  {| rootMessage := r; rootfile := rootfile w; kv_store := kv_store w;
     clock := clock w; steps := steps w |}.

Definition set_rootfile (r : option RootMessage) (w : world) : world :=
  {| rootMessage := rootMessage w; rootfile := r; kv_store := kv_store w;
     clock := clock w; steps := steps w |}.

Definition set_kv_store (m : gmap string kvEntry) (w : world) : world :=
  {| rootMessage := rootMessage w; rootfile := rootfile w; kv_store := m;
     clock := clock w; steps := steps w |}.

(** One question answered by the outside world after [dt] milliseconds. *)
Definition asked (dt : N) (w : world) : world :=
  {| rootMessage := rootMessage w; rootfile := rootfile w; kv_store := kv_store w;
     clock := clock w + Z.of_N dt; steps := S (steps w) |}.

(** [ms] milliseconds go by between two events. *)
Definition later (ms : N) (w : world) : world :=
  {| rootMessage := rootMessage w; rootfile := rootfile w; kv_store := kv_store w;
     clock := clock w + Z.of_N ms; steps := steps w |}.

(** ** The monad *)

Inductive outcome (A : Type) : Type :=
  | Return (a : A)
  | Throw (e : exn).
Arguments Return {A} a.
Arguments Throw {A} e.

Record run (A : Type) : Type := {
  result : outcome A;
  final : world;
  effects : list effect
}.
Arguments result {A} r.
Arguments final {A} r.
Arguments effects {A} r.

Definition M (A : Type) : Type := world -> run A.

Definition ret {A : Type} (a : A) : M A :=
  fun w => {| result := Return a; final := w; effects := [] |}.

Definition throw {A : Type} (e : exn) : M A :=
  fun w => {| result := Throw e; final := w; effects := [] |}.

(** The effects [l] came first. *)
Definition prepend {A : Type} (l : list effect) (r : run A) : run A :=
  match r with
  | {| result := x; final := w; effects := l' |} =>
      {| result := x; final := w; effects := (l ++ l')%list |}
  end.

Definition bind {A B : Type} (m : M A) (f : A -> M B) : M B :=
  fun w =>
    match m w with
    | {| result := Return a; final := w1; effects := l1 |} => prepend l1 (f a w1)
    | {| result := Throw e; final := w1; effects := l1 |} =>
        {| result := Throw e; final := w1; effects := l1 |}
    end.

(** [try { body } catch (error) { handler(error) }] *)
Definition try_catch {A : Type} (body : M A) (handler : exn -> M A) : M A :=
  fun w =>
    match body w with
    | {| result := Return a; final := w1; effects := l1 |} =>
        {| result := Return a; final := w1; effects := l1 |}
    | {| result := Throw e; final := w1; effects := l1 |} =>
        prepend l1 (handler e w1)
    end.

Notation "x <- m ;; k" := (bind m (fun x => k))
  (at level 100, m at next level, right associativity).
Notation "m ;;; k" := (bind m (fun _ => k))
  (at level 100, right associativity).

(** An effect that changes nothing in the state. *)
Definition emit (e : effect) : M unit :=
  fun w => {| result := Return tt; final := w; effects := [e] |}.

Definition console_log (label : string) : M unit := emit (ConsoleLog label).
Definition console_error (label : string) : M unit := emit (ConsoleError label).

(** [m] runs when an answer arrives that the caller did not wait for. *)
Definition later_on {A : Type} (m : M A) : M A :=
  fun w =>
    match m w with
    | {| result := x; final := w1; effects := l |} =>
        {| result := x; final := w1; effects := map Later l |}
    end.

(** ** Reading the log of effects *)

(** The requests made to [chat.postMessage], with their replies, in order. *)
Definition posted (l : list effect) : list (messageParams * postReply) :=
  flat_map (fun e => match e with Post p r => [(p, r)] | _ => [] end) l.

(** The accesses to the key-value store and to the random source, in order. *)
Definition store_ops (l : list effect) : list effect :=
  List.filter
    (fun e => match e with
              | KvGet _ _ | KvSet _ _ _ | MathRandom _ => true
              | _ => false
              end) l.

(** The labels given to [console.error], in order (those of [Later]
    entries, whose moment is not known, are left out). *)
Definition errors_logged (l : list effect) : list string :=
  flat_map (fun e => match e with ConsoleError s => [s] | _ => [] end) l.

(** The writes of the file [.rootmessage] that were started, in order, each
    with its content and with whether it succeeds. *)
Definition written (l : list effect) : list (option RootMessage * bool) :=
  flat_map (fun e => match e with FileWrite c ok => [(c, ok)] | _ => [] end) l.

(** The hand as [drawCard] resolves it from what the store returned (lines
    117-120): the stored array, the empty array for a falsy result, and
    nothing that can be drawn into for any other value. *)
Definition read_hand (found : option value) : option (list value) :=
  if truthy_opt found then
    match found with
    | Some (VArr hand) => Some hand
    | _ => None
    end
  else Some [].

(** ** The outside world *)

(** The collaborators whose answers the bot cannot predict.  Each is asked
    with the number of questions put so far, so that it may answer the same
    request differently at different moments. *)
Record environment : Type := {
  chat_postMessage : nat -> messageParams -> postReply;
  reactions_call : nat -> reactionParams -> bool;
  Bun_write : nat -> option RootMessage -> bool;
  Math_random : nat -> fraction
}.

(** ** Sample data

    A small catalog, gateways of three tempers and a few states of the game,
    on which the properties below are exercised. *)
Module Sample.

Definition channel : string := "C0TAROT".

Definition cards : list (string * Card) :=
  [("fool", {| card_name := "Fool"; card_requirements := "none" |});
   ("magician", {| card_name := "Magician"; card_requirements := "a wand" |})].

(** Every text is its own key. *)
Definition transcript (key : string) : string := key.

Definition root_ts : string := "1700000000.000100".

(** Every request is accepted and answered after 120 ms; [Math.random]
    yields one half. *)
Definition accepting : environment :=
  {| chat_postMessage := fun _ p =>
       {| elapsed := 120;
          answer := PostOk {| res_channel := mp_channel p;
                              res_ts := "1700000000.000200" |} |};
     reactions_call := fun _ _ => true;
     Bun_write := fun _ _ => true;
     Math_random := fun _ => {| fr_numerator := 1; fr_exponent := 1 |} |}.

(** Every message is refused. *)
Definition refusing : environment :=
  {| chat_postMessage := fun _ _ =>
       {| elapsed := 120;
          answer := PostFail (GatewayError "channel_not_found") |};
     reactions_call := fun _ _ => false;
     Bun_write := fun _ _ => true;
     Math_random := fun _ => {| fr_numerator := 1; fr_exponent := 1 |} |}.

(** The announcements to the player U1 are refused, all else is accepted. *)
Definition refusing_announcements : environment :=
  {| chat_postMessage := fun _ p =>
       {| elapsed := 120;
          answer := if String.prefix "<@U1> draws the " (mp_text p)
                    then PostFail (GatewayError "ratelimited")
                    else PostOk {| res_channel := mp_channel p;
                                   res_ts := "1700000000.000200" |} |};
     reactions_call := fun _ _ => true;
     Bun_write := fun _ _ => true;
     Math_random := fun _ => {| fr_numerator := 1; fr_exponent := 1 |} |}.

(** No root message, nothing stored. *)
Definition fresh : world :=
  {| rootMessage := None; rootfile := None; kv_store := ∅; clock := 0; steps := 0 |}.

Definition root : option RootMessage :=
  Some {| root_channelId := channel; root_messageTs := root_ts |}.

(** The root message is posted, nobody has drawn. *)
Definition playing : world :=
  {| rootMessage := root; rootfile := root; kv_store := ∅; clock := 5000; steps := 0 |}.

(** U1 drew the magician at the instant 4000. *)
Definition cooling : world :=
  {| rootMessage := root; rootfile := root;
     kv_store :=
       <["user_hand:U1" := {| kv_value := VArr [VStr "magician"]; kv_expires := None |}]>
         (<["card_draw:U1" := {| kv_value := VBool true; kv_expires := Some 34000%Z |}]> ∅);
     clock := 5000; steps := 0 |}.

(** U1 drew the magician long ago: the cooldown is over. *)
Definition holding : world :=
  {| rootMessage := root; rootfile := root;
     kv_store :=
       <["user_hand:U1" := {| kv_value := VArr [VStr "magician"]; kv_expires := None |}]> ∅;
     clock := 90000; steps := 0 |}.

(** U1 holds every card, and the cooldown is over. *)
Definition exhausted : world :=
  {| rootMessage := root; rootfile := root;
     kv_store :=
       <["user_hand:U1" := {| kv_value := VArr [VStr "magician"; VStr "fool"];
                              kv_expires := None |}]> ∅;
     clock := 90000; steps := 0 |}.

(** A reply in the thread of the root message. *)
Definition reply_of (user text : string) : InboundEvent :=
  {| ev_channel := channel; ev_thread_ts := Some root_ts;
     ev_ts := "1700000000.000300"; ev_text := text;
     ev_user := user; ev_bot_id := None |}.

(** A message of the channel outside any thread. *)
Definition top_level (user text : string) : InboundEvent :=
  {| ev_channel := channel; ev_thread_ts := None;
     ev_ts := "1700000000.000300"; ev_text := text;
     ev_user := user; ev_bot_id := None |}.

(** A reply in the thread of the root message, sent in another channel. *)
Definition elsewhere (user text : string) : InboundEvent :=
  {| ev_channel := "C0OTHER"; ev_thread_ts := Some root_ts;
     ev_ts := "1700000000.000300"; ev_text := text;
     ev_user := user; ev_bot_id := None |}.

(** A reply of the channel in the thread of the message [thread]. *)
Definition reply_in (thread user text : string) : InboundEvent :=
  {| ev_channel := channel; ev_thread_ts := Some thread;
     ev_ts := "1700000000.000300"; ev_text := text;
     ev_user := user; ev_bot_id := None |}.

(** The event that reports a message of the bot itself in the thread of the
    message [thread]. *)
Definition echo (thread text : string) : InboundEvent :=
  {| ev_channel := channel; ev_thread_ts := Some thread;
     ev_ts := "1700000000.000400"; ev_text := text;
     ev_user := EmptyString; ev_bot_id := Some "B0FOOL" |}.

(** The file can always be read. *)
Definition readable : nat -> bool := fun _ => true.

(** What the accepting gateway replies. *)
Definition accepted : postResult :=
  {| res_channel := channel; res_ts := "1700000000.000200" |}.

(** Every message is accepted, and no write of the file succeeds. *)
Definition read_only_disk : environment :=
  {| chat_postMessage := chat_postMessage accepting;
     reactions_call := reactions_call accepting;
     Bun_write := fun _ _ => false;
     Math_random := Math_random accepting |}.

End Sample.

Section SlackBot.

Set Default Proof Using "Type".

(** [this.channelId], set once by the constructor. *)
Variable channelId : string.

(** [transcript('cards')]: the catalog, in the order of [Object.keys]. *)
Variable cards : list (string * Card).

(** [transcript(key)] for the keys that denote a text.  The module
    [transcript.js] is not part of the sources at hand; it is taken as given,
    with the contract of the specification's Content Catalog
    (getLocalizedString(key) -> string). *)
Variable transcript : string -> string.

Variable env : environment.

(** *** Primitive effects *)

(** [await this.client.chat.postMessage(messageParams)] *)
Definition postMessage (p : messageParams) : M postResult :=
  fun w =>
    let r := chat_postMessage env (steps w) p in
    {| result := match answer r with
                 | PostOk x => Return x
                 | PostFail e => Throw e
                 end;
       final := asked (elapsed r) w;
       effects := [Post p r] |}.

(** [this.client.reactions[reaction](...)]: the request leaves at the call,
    and [ok] is the answer it gets.  The program calls [react] without
    [await] (line 101): the caller does not wait for the answer, and no time
    is counted for it. *)
Definition reactions_request (p : reactionParams) : M unit :=
  fun w =>
    let ok := reactions_call env (steps w) p in
    {| result := if ok then Return tt else Throw (GatewayError "reactions");
       final := asked 0 w;
       effects := [Reaction p ok] |}.

(** [Math.random()] *)
Definition random : M fraction :=
  fun w =>
    let u := Math_random env (steps w) in
    {| result := Return u; final := asked 0 w; effects := [MathRandom u] |}.

(** [Bun.write('.rootmessage', JSON.stringify(content))], whose promise is
    dropped: the write is started and the caller goes on at once.  Nothing is
    thrown at the call.  When the write fails the file stays as it was and the
    promise is rejected, which no handler of the program sees; what the
    runtime makes of such a rejection is outside the program. *)
Definition file_write (content : option RootMessage) : M unit :=
  fun w =>
    if Bun_write env (steps w) content
    then {| result := Return tt; final := set_rootfile content (asked 0 w);
            effects := [FileWrite content true] |}
    else {| result := Return tt; final := asked 0 w;
            effects := [FileWrite content false] |}.

(** [this.rootMessage] *)
Definition getRootMessage : M (option RootMessage) :=
  fun w => {| result := Return (rootMessage w); final := w; effects := [] |}.

(** [this.rootMessage = r] *)
Definition assignRootMessage (r : option RootMessage) : M unit :=
  fun w => {| result := Return tt; final := set_rootMessage r w; effects := [] |}.

(** *** The key-value store *)

(** Modelled from the spec: the module [kv.js] is imported by [slack.js] but
    is not part of the sources at hand.  The specification gives its
    contract: get(key) -> value | absent and set(key, value, ttlMillis?) ->
    void, an entry written with a time-to-live being destroyed automatically
    when it has elapsed.  The store keeps the values as they are written; the
    flag that [drawCard] passes after the key of the hand, and after the
    absent time-to-live of the hand, is not part of that contract and is left
    out.  The store answers at once: only the gateway takes time. *)
Definition kv_live (now : Z) (e : kvEntry) : bool :=
  match kv_expires e with
  | Some t => (now <? t)%Z
  | None => true
  end.

(** Modelled from the spec: what get(key) finds at the instant [now]. *)
Definition kv_lookup (now : Z) (store : gmap string kvEntry) (key : string)
  : option value :=
  match store !! key with
  | Some e => if kv_live now e then Some (kv_value e) else None
  | None => None
  end.

(** Modelled from the spec: [await kv.get(key)]. *)
Definition kv_get (key : string) : M (option value) :=
  fun w =>
    let found := kv_lookup (clock w) (kv_store w) key in
    {| result := Return found; final := w; effects := [KvGet key found] |}.

(** Modelled from the spec: [kv.set(key, v, ttl)]. *)
Definition kv_set (key : string) (v : value) (ttl : option Z) : M unit :=
  fun w =>
    let e := {| kv_value := v;
                kv_expires := match ttl with
                              | Some ms => Some (clock w + ms)%Z
                              | None => None
                              end |} in
    {| result := Return tt;
       final := set_kv_store (<[key := e]> (kv_store w)) w;
       effects := [KvSet key v ttl] |}.

(** *** The methods of [SlackBot] *)

(** Whether the file [.rootmessage] can be looked up, read and parsed, when
    it is asked for: [file.exists()], [file.text()] and [JSON.parse] may each
    throw. *)
Variable Bun_read : nat -> bool.

(** Lines 18-22: [JSON.parse(await file.text())] when the file exists, and
    nothing otherwise.  Reading is not written down in the log. *)
Definition file_read : M (option RootMessage) :=
  fun w =>
    if Bun_read (steps w)
    then {| result := Return (rootfile w); final := asked 0 w; effects := [] |}
    else {| result := Throw (IOError "read"); final := asked 0 w; effects := [] |}.

(** An absent file falls through to [return null], which is also what the
    [try] block yields for it here. *)
Definition loadRootMessage : M (option RootMessage) :=
  try_catch
    file_read
    (fun _ => console_error "Error loading root message:" ;;; ret None).

(** The handler is there as in the source; [file_write] gives it nothing to
    catch. *)
Definition saveRootMessage : M unit :=
  try_catch
    (r <- getRootMessage ;; file_write r)
    (fun _ => console_error "Error saving root message:").

Definition sendMessage (message : string) (threadTs username : option string)
  : M postResult :=
  try_catch
    (let messageParams :=
       {| mp_channel := channelId;
          mp_text := message;
          mp_thread_ts := if truthy_str threadTs then threadTs else None;
          mp_username := if truthy_str username then username else None |} in
     console_log "Sending message with params:" ;;;
     result <- postMessage messageParams ;;
     (if negb (truthy_str threadTs)
      then assignRootMessage
             (Some {| root_channelId := res_channel result;
                      root_messageTs := res_ts result |}) ;;;
           saveRootMessage
      else ret tt) ;;;
     ret result)
    (fun error => console_error "Error sending message to Slack:" ;;; throw error).

(** [await new Promise(resolve => setTimeout(resolve, ms))], the timer
    firing on time. *)
Definition sleep (ms : N) : M unit :=
  fun w => {| result := Return tt; final := later ms w; effects := [] |}.

(** The text of the opening message, the playing card U+1F0CF, held as its
    four UTF-8 bytes: the text goes to the gateway as it is. *)
Definition joker : string := "🃏".

Definition initialMessage : M postResult :=
  try_catch
    (result <- sendMessage joker None None ;;
     sleep 3000 ;;;
     sendMessage "ooooh! what's this deck of cards doing here?"
       (Some (res_ts result)) (Some "The Fool") ;;;
     sleep 3000 ;;;
     sendMessage "DRAW" (Some (res_ts result)) (Some "The Fool") ;;;
     sleep 3000 ;;;
     ret result)
    (fun error => console_error "Error sending initial message:" ;;; throw error).

(** [react] as the program calls it, without [await]: the request is made at
    the call, and the handler runs when its rejection arrives. *)
Definition react (messageTs name : string) (turnOn : bool) : M unit :=
  let reaction := if turnOn then "add" else "remove" in
  try_catch
    (reactions_request {| rp_method := reaction; rp_channel := channelId;
                          rp_timestamp := messageTs; rp_name := name |})
    (fun _ => later_on (console_error "Failed to react to message:")).

(** [Object.keys(allCards)] *)
Definition cardKeys : list string := map fst cards.

(** [allCards[key]] *)
Definition card_of (key : string) : option Card :=
  match List.find (fun kc => String.eqb (fst kc) key) cards with
  | Some kc => Some (snd kc)
  | None => None
  end.

(** [cardKeys.filter(key => !userHand.includes(key))] *)
Definition availableCards (userHand : list value) : list string :=
  List.filter (fun key => negb (includes userHand (VStr key))) cardKeys.

(** [availableCards[Math.floor(u * availableCards.length)]] *)
Definition pick (available : list string) (u : fraction) : option string :=
  array_get available (floor_of_product u (length available)).

(** The user-facing name of the actor. *)
Definition mention (username : string) : string :=
  if startsWith username "U" then "<@" ++ username ++ ">" else username.

Definition cooldown_key (username : string) : string := "card_draw:" ++ username.
Definition hand_key (username : string) : string := "user_hand:" ++ username.

(** The text of the final message. *)
Definition announcement (userMention : string) (chosenCard : Card) (flavor : string)
  : string :=
  userMention ++ " draws the " ++ card_name chosenCard ++ "!" ++ nl ++ "_"
    ++ flavor ++ "_" ++ nl ++ nl ++ "Requirements: " ++ card_requirements chosenCard.

(** Lines 122-136 of [drawCard]: the draw proper, once the hand has been
    read as an array. *)
Definition deal (messageTs username userMention : string) (userHand : list value)
  : M unit :=
  let available := availableCards userHand in
  u <- random ;;
  let randomCard := pick available u in
  let userHand' := (userHand ++ [key_to_value randomCard])%list in
  kv_set (hand_key username) (VArr userHand') None ;;;
  let chosenCard := card_of (key_to_string randomCard) in
  let flavor := transcript ("cards." ++ key_to_string randomCard ++ ".flavor") in
  match chosenCard with
  | Some c =>
      sendMessage (announcement userMention c flavor) (Some messageTs) None ;;;
      ret tt
  | None => throw (TypeError "undefined is not an object (evaluating 'chosenCard.name')")
  end.

(** What calling [userHand.push] and [userHand.includes] raises on a value
    that has no such method. *)
Definition push_is_not_a_function : string :=
  "userHand.push is not a function. (In 'userHand.push(randomCard)', 'userHand.push' is undefined)".
Definition includes_is_not_a_function : string :=
  "userHand.includes is not a function. (In 'userHand.includes(key)', 'userHand.includes' is undefined)".

(** Lines 104-136 of [drawCard]: the body of its [try] block. *)
Definition drawCard_try (messageTs username userMention : string) : M unit :=
  sendMessage (userMention ++ " " ++ transcript "drawing.start" ++ "...")
    (Some messageTs) None ;;;
  lastDraw <- kv_get (cooldown_key username) ;;
  if truthy_opt lastDraw then
    sendMessage (userMention ++ " " ++ transcript "drawing.too_soon")
      (Some messageTs) None ;;;
    ret tt
  else
    kv_set (cooldown_key username) (VBool true) (Some (30 * 1000)%Z) ;;;
    userHand <- kv_get (hand_key username) ;;
    match (if truthy_opt userHand then userHand else Some (VArr [])) with
    | Some (VArr hand) => deal messageTs username userMention hand
    | Some (VStr _) =>
        (* a string has [includes] but no [push] *)
        random ;;; throw (TypeError push_is_not_a_function)
    | _ =>
        (* [true] is the only other truthy value: [includes] is missing as
           soon as the filter visits a key, [push] otherwise *)
        match cardKeys with
        | [] => random ;;; throw (TypeError push_is_not_a_function)
        | _ :: _ => throw (TypeError includes_is_not_a_function)
        end
    end.

(** The reaction is requested without being awaited; its failure is logged
    by [react] itself, later on. *)
Definition drawCard (messageTs username : string) : M unit :=
  let userMention := mention username in
  react messageTs "beachball" true ;;;
  try_catch
    (drawCard_try messageTs username userMention)
    (fun error => console_error "Error in drawCard:" ;;; throw error).

(** [a === b] for two values that are a string or [undefined]. *)
Definition strict_equal (a b : option string) : bool :=
  match a, b with
  | Some x, Some y => String.eqb x y
  | None, None => true
  | _, _ => false
  end.

Definition handleMessageEvent (event : InboundEvent) : M unit :=
  try_catch
    (console_log "Received message event:" ;;;
     if negb (String.eqb (ev_channel event) channelId) then
       console_log "Message is not in our channel, ignoring"
     else
       root <- getRootMessage ;;
       if strict_equal (ev_thread_ts event) (option_map root_messageTs root) then
         if String.eqb (toUpperCase (trim (ev_text event))) "DRAW" then
           console_log "DRAW command detected, calling drawCard with messageTs:" ;;;
           let username :=
             if truthy_str (ev_bot_id event) then "The Fool" else ev_user event in
           drawCard (ev_ts event) username
         else ret tt
       else console_log "Message is not in our thread, ignoring")
    (fun _ => console_error "Error handling message event:").


(** ** Running the methods *)

(** The request that [sendMessage] builds. *)
Definition send_params (message : string) (threadTs username : option string)
  : messageParams :=
  {| mp_channel := channelId;
     mp_text := message;
     mp_thread_ts := if truthy_str threadTs then threadTs else None;
     mp_username := if truthy_str username then username else None |}.

(** The reaction that [drawCard] asks for. *)
Definition beachball (messageTs : string) : reactionParams :=
  {| rp_method := "add"; rp_channel := channelId;
     rp_timestamp := messageTs; rp_name := "beachball" |}.

(** The actor of a draw request (line 181). *)
Definition actor (event : InboundEvent) : string :=
  if truthy_str (ev_bot_id event) then "The Fool" else ev_user event.

(** A hypothesis [In e l] for a written-out list [l] without [e]. *)
Ltac not_in H :=
  simpl in H; repeat (destruct H as [H|H]; [discriminate H|]); contradiction.

Ltac unfold_monad :=
  unfold bind, try_catch, ret, throw, console_log, console_error, emit, later_on,
    postMessage, reactions_request, random, file_write, getRootMessage,
    assignRootMessage, kv_get, kv_set.

Ltac reduce :=
  cbn beta iota zeta delta
    [prepend result final effects asked set_rootMessage set_rootfile set_kv_store
     rootMessage rootfile kv_store clock steps app negb map
     posted store_ops errors_logged written flat_map List.filter].

(** Case analysis on the innermost thing a [match] waits for, unless it is
    the run of a method. *)
Ltac case_scrutinee :=
  match goal with
  | |- context [match ?x with _ => _ end] =>
      lazymatch x with
      | context [match _ with _ => _ end] => fail
      | _ => lazymatch type of x with
             | run _ => fail
             | _ => destruct x eqn:?
             end
      end
  end.

Lemma react_run messageTs name turnOn w :
  react messageTs name turnOn w =
  let p := {| rp_method := if turnOn then "add" else "remove";
              rp_channel := channelId; rp_timestamp := messageTs;
              rp_name := name |} in
  let ok := reactions_call env (steps w) p in
  {| result := Return tt;
     final := asked 0 w;
     effects := Reaction p ok ::
                if ok then []
                else [Later (ConsoleError "Failed to react to message:")] |}.
Proof.
  unfold react. unfold_monad. reduce.
  destruct (reactions_call env (steps w) _); reflexivity.
Qed.

Lemma sendMessage_run message threadTs username w :
  sendMessage message threadTs username w =
  let p := send_params message threadTs username in
  let r := chat_postMessage env (steps w) p in
  let w1 := asked (elapsed r) w in
  match answer r with
  | PostFail e =>
      {| result := Throw e; final := w1;
         effects := [ConsoleLog "Sending message with params:"; Post p r;
                     ConsoleError "Error sending message to Slack:"] |}
  | PostOk x =>
      if truthy_str threadTs then
        {| result := Return x; final := w1;
           effects := [ConsoleLog "Sending message with params:"; Post p r] |}
      else
        let root := Some {| root_channelId := res_channel x;
                            root_messageTs := res_ts x |} in
        let w2 := set_rootMessage root w1 in
        if Bun_write env (steps w2) root then
          {| result := Return x; final := set_rootfile root (asked 0 w2);
             effects := [ConsoleLog "Sending message with params:"; Post p r;
                         FileWrite root true] |}
        else
          {| result := Return x; final := asked 0 w2;
             effects := [ConsoleLog "Sending message with params:"; Post p r;
                         FileWrite root false] |}
  end.
Proof.
  unfold sendMessage, saveRootMessage, send_params. unfold_monad. reduce.
  destruct (answer _); [|reflexivity].
  destruct (truthy_str threadTs); reduce; [reflexivity|].
  destruct (Bun_write _ _ _); reflexivity.
Qed.

(** [drawCard] begins by asking for the reaction on the triggering message. *)
Lemma drawCard_reacts messageTs username w :
  exists ok rest,
    effects (drawCard messageTs username w) = Reaction (beachball messageTs) ok :: rest.
Proof.
  unfold drawCard, bind. rewrite react_run. reduce.
  destruct (try_catch _ _ _) as [res fin effs]. reduce.
  eexists _, _. reflexivity.
Qed.

(** What [handleMessageEvent] does with an event of its channel that replies
    in the thread of the root message, according to the text. *)
Lemma handleMessageEvent_in_thread event w :
  ev_channel event = channelId ->
  strict_equal (ev_thread_ts event) (option_map root_messageTs (rootMessage w)) = true ->
  handleMessageEvent event w =
  if String.eqb (toUpperCase (trim (ev_text event))) "DRAW" then
    let d := drawCard (ev_ts event) (actor event) w in
    {| result := Return tt;
       final := final d;
       effects :=
         ConsoleLog "Received message event:"
         :: ConsoleLog "DRAW command detected, calling drawCard with messageTs:"
         :: (effects d ++
             match result d with
             | Return _ => []
             | Throw _ => [ConsoleError "Error handling message event:"]
             end)%list |}
  else
    {| result := Return tt; final := w;
       effects := [ConsoleLog "Received message event:"] |}.
Proof.
  intros Hch Hth. unfold handleMessageEvent, actor. unfold_monad. reduce.
  rewrite Hch, String.eqb_refl. reduce. rewrite Hth.
  destruct (String.eqb (toUpperCase _) _); reduce; [|reflexivity].
  destruct (drawCard _ _ _) as [[[]|e] fin effs]; reduce;
    rewrite ?app_nil_r; reflexivity.
Qed.

(** ** The session: [sendMessage] *)

(** C8.  A call of [sendMessage] without a thread id (null, or the falsy empty
    string) whose message the gateway accepts makes the posted message the
    root message: [this.rootMessage] holds the channel and the timestamp of
    the reply, and one write of the file is started, with that very content.
    The file holds it once that write has succeeded; were the write to fail,
    the file would stay as it was.  [console.error] is not called either way.
    A call with a thread id leaves [this.rootMessage] and the file as they
    were and starts no write, whatever the gateway answers. *)
Theorem sendMessage_session message threadTs username w :
  (truthy_str threadTs = false ->
   forall x, result (sendMessage message threadTs username w) = Return x ->
     let root := Some {| root_channelId := res_channel x;
                         root_messageTs := res_ts x |} in
     (exists reply,
        posted (effects (sendMessage message threadTs username w)) =
          [(send_params message None username, reply)] /\
        answer reply = PostOk x) /\
     rootMessage (final (sendMessage message threadTs username w)) = root /\
     (exists ok,
        written (effects (sendMessage message threadTs username w)) = [(root, ok)] /\
        rootfile (final (sendMessage message threadTs username w)) =
          if ok then root else rootfile w) /\
     errors_logged (effects (sendMessage message threadTs username w)) = [])
  /\
  (truthy_str threadTs = true ->
     rootMessage (final (sendMessage message threadTs username w)) = rootMessage w /\
     rootfile (final (sendMessage message threadTs username w)) = rootfile w /\
     written (effects (sendMessage message threadTs username w)) = []).
Proof.
  rewrite sendMessage_run. unfold send_params. cbn zeta.
  split; intros Hth; rewrite Hth.
  - intros x. destruct (answer _) eqn:Hans; [|discriminate].
    destruct (Bun_write _ _ _); reduce; intros [= ->];
      (split; [eexists; split; [reflexivity|exact Hans]|]);
      (split; [reflexivity|]); (split; [eexists; split; reflexivity|reflexivity]).
  - destruct (answer _); reduce; auto.
Qed.

(** ** The router: [handleMessageEvent] *)

(** An event of another channel is ignored. *)
Lemma handleMessageEvent_other_channel event w :
  ev_channel event <> channelId ->
  handleMessageEvent event w =
    {| result := Return tt; final := w;
       effects := [ConsoleLog "Received message event:";
                   ConsoleLog "Message is not in our channel, ignoring"] |}.
Proof.
  intros Hch. unfold handleMessageEvent. unfold_monad. reduce.
  destruct (String.eqb_spec (ev_channel event) channelId); [contradiction|].
  reflexivity.
Qed.

(** An event of the channel whose thread is not that of the root message is
    ignored. *)
Lemma handleMessageEvent_other_thread event w :
  ev_channel event = channelId ->
  strict_equal (ev_thread_ts event) (option_map root_messageTs (rootMessage w)) = false ->
  handleMessageEvent event w =
    {| result := Return tt; final := w;
       effects := [ConsoleLog "Received message event:";
                   ConsoleLog "Message is not in our thread, ignoring"] |}.
Proof.
  intros Hch Hth. unfold handleMessageEvent. unfold_monad. reduce.
  rewrite Hch, String.eqb_refl. reduce. rewrite Hth. reflexivity.
Qed.

(** C5.  For an event of the channel in the thread of the root message, the
    draw is triggered exactly when the text, trimmed and put in upper case,
    is DRAW: then [handleMessageEvent] runs [drawCard] for the event's
    timestamp and actor (whose first effect is the reaction on the triggering
    message); otherwise it does nothing but log the event.  The texts
    [" draw "], ["Draw"] and ["DRAW"] are recognized and ["draws"] is not. *)
Theorem handleMessageEvent_draw_command event w :
  ev_channel event = channelId ->
  strict_equal (ev_thread_ts event) (option_map root_messageTs (rootMessage w)) = true ->
  (toUpperCase (trim (ev_text event)) = "DRAW" ->
     let d := drawCard (ev_ts event) (actor event) w in
     final (handleMessageEvent event w) = final d /\
     effects (handleMessageEvent event w) =
       ConsoleLog "Received message event:"
       :: ConsoleLog "DRAW command detected, calling drawCard with messageTs:"
       :: (effects d ++
           match result d with
           | Return _ => []
           | Throw _ => [ConsoleError "Error handling message event:"]
           end)%list) /\
  (toUpperCase (trim (ev_text event)) <> "DRAW" ->
     handleMessageEvent event w =
       {| result := Return tt; final := w;
          effects := [ConsoleLog "Received message event:"] |}) /\
  ((exists ok, In (Reaction (beachball (ev_ts event)) ok)
                  (effects (handleMessageEvent event w)))
   <-> toUpperCase (trim (ev_text event)) = "DRAW") /\
  toUpperCase (trim " draw ") = "DRAW" /\
  toUpperCase (trim "Draw") = "DRAW" /\
  toUpperCase (trim "DRAW") = "DRAW" /\
  toUpperCase (trim "draws") <> "DRAW".
Proof.
  intros Hch Hth. rewrite (handleMessageEvent_in_thread _ _ Hch Hth).
  destruct (String.eqb_spec (toUpperCase (trim (ev_text event))) "DRAW") as [He|Hne].
  - repeat split; auto; try contradiction; try discriminate.
    intros _. reduce.
    destruct (drawCard_reacts (ev_ts event) (actor event) w) as (ok & rest & ->).
    exists ok. simpl. auto.
  - repeat split; auto; try contradiction; try discriminate.
    intros [ok Hin]. not_in Hin.
Qed.

(** C3, evaluated on the code.  The comparison of line 176 holds when both
    sides are [undefined]: with no root message loaded, an event of the
    channel that is not in any thread passes it, and the text DRAW then
    triggers [drawCard]. *)
Theorem handleMessageEvent_no_session_draws event w :
  ev_channel event = channelId ->
  rootMessage w = None ->
  ev_thread_ts event = None ->
  toUpperCase (trim (ev_text event)) = "DRAW" ->
  exists ok, In (Reaction (beachball (ev_ts event)) ok)
                (effects (handleMessageEvent event w)).
Proof.
  intros Hch Hroot Hth Htext.
  rewrite handleMessageEvent_in_thread; [|exact Hch|rewrite Hroot, Hth; reflexivity].
  rewrite Htext. reduce.
  destruct (drawCard_reacts (ev_ts event) (actor event) w) as (ok & rest & ->).
  exists ok. simpl. auto.
Qed.

(** ** Errors *)

(** The handler of [drawCard]'s [try] block logs and raises again. *)
Lemma try_catch_rethrow {A : Type} (body : M A) (label : string) w :
  try_catch body (fun error => console_error label ;;; throw error) w =
  {| result := result (body w);
     final := final (body w);
     effects := (effects (body w) ++
                 match result (body w) with
                 | Return _ => []
                 | Throw _ => [ConsoleError label]
                 end)%list |}.
Proof.
  unfold try_catch. unfold_monad.
  destruct (body w) as [[a|e] fin effs]; reduce; rewrite ?app_nil_r; auto.
Qed.

(** [drawCard] as the run of its [try] block after the reaction. *)
Lemma drawCard_run messageTs username w :
  let ok := reactions_call env (steps w) (beachball messageTs) in
  let body := drawCard_try messageTs username (mention username) (asked 0 w) in
  drawCard messageTs username w =
  {| result := result body;
     final := final body;
     effects :=
       Reaction (beachball messageTs) ok
       :: ((if ok then [] else [Later (ConsoleError "Failed to react to message:")])
           ++ effects body
           ++ match result body with
              | Return _ => []
              | Throw _ => [ConsoleError "Error in drawCard:"]
              end)%list |}.
Proof.
  unfold drawCard. unfold bind at 1. rewrite react_run. reduce.
  rewrite try_catch_rethrow. reduce. unfold beachball. reflexivity.
Qed.

(** C7.  An error raised in the [try] block of [drawCard] (lines 104-136: the
    cooldown check, the sampling, the recording, the announcement) is logged
    by [drawCard] and raised again, unchanged; [handleMessageEvent] never
    raises: when the [drawCard] it calls raises, it logs the error after
    [drawCard] did and returns. *)
Theorem draw_errors_are_caught :
  (forall messageTs username w e,
     result (drawCard_try messageTs username (mention username)
               (final (react messageTs "beachball" true w))) = Throw e ->
     result (drawCard messageTs username w) = Throw e /\
     exists l, effects (drawCard messageTs username w) =
                 (l ++ [ConsoleError "Error in drawCard:"])%list) /\
  (forall event w, result (handleMessageEvent event w) = Return tt) /\
  (forall event w e,
     ev_channel event = channelId ->
     strict_equal (ev_thread_ts event)
       (option_map root_messageTs (rootMessage w)) = true ->
     toUpperCase (trim (ev_text event)) = "DRAW" ->
     result (drawCard (ev_ts event) (actor event) w) = Throw e ->
     result (handleMessageEvent event w) = Return tt /\
     exists l, effects (handleMessageEvent event w) =
                 (l ++ [ConsoleError "Error in drawCard:";
                        ConsoleError "Error handling message event:"])%list).
Proof.
  split; [|split].
  - intros messageTs username w e. rewrite react_run, drawCard_run. reduce.
    intros ->. split; [reflexivity|].
    match goal with
    | |- exists l, (?a :: ?x ++ ?y ++ [?c])%list = _ => exists (a :: x ++ y)%list
    end.
    cbn [app]. rewrite <- app_assoc. reflexivity.
  - intros event w. unfold handleMessageEvent, try_catch.
    destruct (bind _ _ w) as [[[]|e] fin effs]; reflexivity.
  - intros event w e Hch Hth Htext.
    rewrite (handleMessageEvent_in_thread _ _ Hch Hth), Htext.
    rewrite String.eqb_refl, drawCard_run. reduce. intros ->.
    split; [reflexivity|].
    match goal with
    | |- exists l, (?a :: ?b :: ?c :: (?x ++ ?y ++ [?d]) ++ [?e])%list = _ =>
        exists (a :: b :: c :: x ++ y)%list
    end.
    cbn [app]. rewrite <- !app_assoc. reflexivity.
Qed.

(** ** The draw: [drawCard] *)

Lemma posted_app l1 l2 : posted (l1 ++ l2) = (posted l1 ++ posted l2)%list.
Proof. apply flat_map_app. Qed.

Lemma store_ops_app l1 l2 : store_ops (l1 ++ l2) = (store_ops l1 ++ store_ops l2)%list.
Proof. apply List.filter_app. Qed.

(** The reaction and the logging of [drawCard] apart, what is observed of
    [drawCard] is what is observed of its [try] block. *)
Lemma drawCard_observed messageTs username w :
  let body := drawCard_try messageTs username (mention username) (asked 0 w) in
  result (drawCard messageTs username w) = result body /\
  final (drawCard messageTs username w) = final body /\
  posted (effects (drawCard messageTs username w)) = posted (effects body) /\
  store_ops (effects (drawCard messageTs username w)) = store_ops (effects body).
Proof.
  rewrite drawCard_run. cbn zeta. reduce.
  repeat split.
  - destruct (reactions_call _ _ _); reduce;
      rewrite posted_app; destruct (result _); reduce; rewrite ?app_nil_r; reflexivity.
  - destruct (reactions_call _ _ _); reduce;
      rewrite store_ops_app; destruct (result _); reduce; rewrite ?app_nil_r; reflexivity.
Qed.

Lemma keys_differ a b : cooldown_key a <> hand_key b.
Proof. unfold cooldown_key, hand_key. simpl. discriminate. Qed.

Lemma send_params_threaded message messageTs :
  messageTs <> EmptyString ->
  send_params message (Some messageTs) None =
    {| mp_channel := channelId; mp_text := message;
       mp_thread_ts := Some messageTs; mp_username := None |}.
Proof.
  intros H. unfold send_params. simpl.
  destruct (String.eqb_spec messageTs EmptyString); [contradiction|reflexivity].
Qed.

Lemma truthy_str_Some s : s <> EmptyString -> truthy_str (Some s) = true.
Proof.
  intros H. simpl. destruct (String.eqb_spec s EmptyString); [contradiction|reflexivity].
Qed.

(** Symbolic execution of the [try] block of [drawCard], one goal per path. *)
Ltac symex :=
  unfold drawCard_try, deal; unfold_monad;
  repeat first
    [ rewrite sendMessage_run
    | match goal with
      | H : ?ts <> EmptyString |- context [truthy_str (Some ?ts)] =>
          rewrite (truthy_str_Some ts H)
      end
    | progress reduce
    | case_scrutinee ].

(** The cases of a hypothesis [In e l] for a list [l] that is written out. *)
Ltac in_cases H :=
  cbn [In] in H;
  repeat match type of H with _ \/ _ => destruct H as [H|H] end;
  try contradiction; try discriminate; simplify_eq;
  try match goal with
      | H' : hand_key _ = cooldown_key _ |- _ =>
          exfalso; exact (keys_differ _ _ (eq_sym H'))
      | H' : cooldown_key _ = hand_key _ |- _ =>
          exfalso; exact (keys_differ _ _ H')
      end.

(** *** The opening message and the cooldown window *)

(** [drawCard] posts its opening message before it looks at the cooldown:
    when the gateway refuses that message, the store is not accessed at all
    and the error is raised. *)
Lemma drawCard_start_refused messageTs username w e :
  answer (chat_postMessage env (S (steps w))
            (send_params (mention username ++ " " ++ transcript "drawing.start" ++ "...")
               (Some messageTs) None)) = PostFail e ->
  result (drawCard messageTs username w) = Throw e /\
  store_ops (effects (drawCard messageTs username w)) = [] /\
  kv_store (final (drawCard messageTs username w)) = kv_store w.
Proof.
  intros Hfail.
  destruct (drawCard_observed messageTs username w) as (-> & -> & _ & ->).
  assert (Hrun : drawCard_try messageTs username (mention username) (asked 0 w) =
                 {| result := Throw e;
                    final := asked (elapsed (chat_postMessage env (S (steps w))
                               (send_params
                                  (mention username ++ " "
                                   ++ transcript "drawing.start" ++ "...")
                                  (Some messageTs) None))) (asked 0 w);
                    effects :=
                      [ConsoleLog "Sending message with params:";
                       Post (send_params
                               (mention username ++ " "
                                ++ transcript "drawing.start" ++ "...")
                               (Some messageTs) None)
                         (chat_postMessage env (S (steps w))
                            (send_params
                               (mention username ++ " "
                                ++ transcript "drawing.start" ++ "...")
                               (Some messageTs) None));
                       ConsoleError "Error sending message to Slack:"] |}).
  { unfold drawCard_try. unfold bind at 1. rewrite sendMessage_run. reduce.
    rewrite Hfail. reflexivity. }
  rewrite Hrun. reduce. auto.
Qed.

(** When the gateway accepts the opening message, the first access to the
    store is the query of the player's cooldown entry, at the instant the
    reply arrives. *)
Lemma drawCard_start_accepted messageTs username w x :
  answer (chat_postMessage env (S (steps w))
            (send_params (mention username ++ " " ++ transcript "drawing.start" ++ "...")
               (Some messageTs) None)) = PostOk x ->
  exists now rest,
    store_ops (effects (drawCard messageTs username w)) =
      KvGet (cooldown_key username)
        (kv_lookup now (kv_store w) (cooldown_key username)) :: rest /\
    (now = clock w +
           Z.of_N (elapsed (chat_postMessage env (S (steps w))
                     (send_params
                        (mention username ++ " " ++ transcript "drawing.start" ++ "...")
                        (Some messageTs) None))))%Z.
Proof.
  intros Hok.
  destruct (drawCard_observed messageTs username w) as (_ & _ & _ & ->).
  unfold drawCard_try. unfold bind at 1. rewrite sendMessage_run. reduce.
  rewrite Hok.
  destruct (truthy_str (Some messageTs)); [|destruct (Bun_write _ _ _)]; reduce;
    unfold bind at 1; unfold kv_get; reduce;
    match goal with
    | |- context [prepend [KvGet _ _] ?r] => destruct r as [res fin effs]
    end; reduce; eexists _, _; (split; [reflexivity|lia]).
Qed.

(** The cooldown window of the store's contract: an entry written with a
    time-to-live of 30000 ms is found until it has elapsed, and no more
    afterwards. *)
Lemma cooldown_window (store : gmap string kvEntry) key v t now :
  store !! key = Some {| kv_value := v; kv_expires := Some (t + 30000)%Z |} ->
  kv_lookup now store key = if (now <? t + 30000)%Z then Some v else None.
Proof.
  intros Hstore. unfold kv_lookup, kv_live. rewrite Hstore. reflexivity.
Qed.

(** Two findings on the same path that contradict each other. *)
Ltac clash :=
  match goal with
  | H1 : truthy_opt ?x = true, H2 : truthy_opt ?y = false |- _ =>
      exfalso; exact (Bool.diff_true_false (eq_trans (eq_sym H1) H2))
  end.

(** The reply of the gateway decides the outcome of a path. *)
Ltac use_answer :=
  match goal with
  | H : answer ?x = _ |- context [answer ?x] => rewrite H
  end.

(** C2.  When the cooldown store holds an entry for the player at the moment
    [drawCard] queries it, [drawCard] accesses the store no further (no hand
    is read or written, no cooldown entry is written, nothing is sampled:
    the store is as it was), and the messages it sends are the opening
    message and then the too-soon response, both threaded under the
    triggering message; it returns once the response is posted (and raises
    the gateway's error if the gateway refuses it). *)
Theorem drawCard_too_soon messageTs username w found :
  messageTs <> EmptyString ->
  In (KvGet (cooldown_key username) found)
     (store_ops (effects (drawCard messageTs username w))) ->
  truthy_opt found = true ->
  store_ops (effects (drawCard messageTs username w)) =
    [KvGet (cooldown_key username) found] /\
  kv_store (final (drawCard messageTs username w)) = kv_store w /\
  exists reply0 reply1,
    posted (effects (drawCard messageTs username w)) =
      [({| mp_channel := channelId;
           mp_text := mention username ++ " " ++ transcript "drawing.start" ++ "...";
           mp_thread_ts := Some messageTs;
           mp_username := None |}, reply0);
       ({| mp_channel := channelId;
           mp_text := mention username ++ " " ++ transcript "drawing.too_soon";
           mp_thread_ts := Some messageTs;
           mp_username := None |}, reply1)] /\
    result (drawCard messageTs username w) =
      match answer reply1 with
      | PostOk _ => Return tt
      | PostFail e => Throw e
      end.
Proof.
  intros Hts.
  destruct (drawCard_observed messageTs username w) as (-> & -> & -> & ->).
  change (kv_store w) with (kv_store (asked 0 w)).
  generalize (asked 0 w) as w0. intros w0.
  symex; intros Hin Ht; in_cases Hin; try congruence; try clash.
  all: split; [reflexivity|]; split; [reflexivity|].
  all: rewrite !(send_params_threaded _ _ Hts) in *.
  all: eexists _, _; split; [reflexivity|]; use_answer; reflexivity.
Qed.

(** C4.  When [drawCard] accesses the store at all (which it does once its
    opening message is accepted), the first access is the query of the
    cooldown entry of the player, under the key [card_draw:] followed by the
    player's identity, and it returns what the store held there when
    [drawCard] began.  When it finds no entry, the next access writes the
    marker [true] under that key with a time-to-live of 30000 ms, and only
    then is the hand read (and, later, a card sampled).  The entry is in the
    store when [drawCard] ends, expiring 30000 ms after the instant of the
    write. *)
Theorem drawCard_commits_cooldown messageTs username w first rest :
  store_ops (effects (drawCard messageTs username w)) = first :: rest ->
  exists now found,
    (clock w <= now <= clock (final (drawCard messageTs username w)))%Z /\
    found = kv_lookup now (kv_store w) ("card_draw:" ++ username) /\
    first = KvGet ("card_draw:" ++ username) found /\
    (truthy_opt found = false ->
     (exists hand_found rest',
        rest = KvSet ("card_draw:" ++ username) (VBool true) (Some 30000%Z)
               :: KvGet ("user_hand:" ++ username) hand_found
               :: rest') /\
     exists t,
       kv_store (final (drawCard messageTs username w)) !! ("card_draw:" ++ username) =
         Some {| kv_value := VBool true; kv_expires := Some (t + 30000)%Z |} /\
       (clock w <= t <= clock (final (drawCard messageTs username w)))%Z).
Proof.
  change ("card_draw:" ++ username) with (cooldown_key username).
  change ("user_hand:" ++ username) with (hand_key username).
  destruct (drawCard_observed messageTs username w) as (_ & -> & _ & ->).
  replace (clock w) with (clock (asked 0 w)) by (simpl; lia).
  change (kv_store w) with (kv_store (asked 0 w)).
  generalize (asked 0 w) as w0. intros w0.
  symex; intros Hops; simplify_eq.
  all: eexists _, _; split; [|split; [reflexivity|split; [reflexivity|]]]; [lia|].
  all: intros Ht; try clash.
  all: (split; [eexists _, _; reflexivity|]).
  all: eexists; rewrite ?lookup_insert_ne by (apply not_eq_sym, keys_differ).
  all: rewrite lookup_insert_eq; (split; [reflexivity|lia]).
Qed.

(** *** Sampling *)

(** Rounding to 53 bits gives no negative number, leaves a number below
    [2 ^ 53] as it is, and adds at most half a unit of the last place to a
    larger one. *)
Lemma round_to_53_bits_bounds p :
  (0 <= p)%Z ->
  (0 <= round_to_53_bits p)%Z /\
  ((2 ^ 53 <= p -> round_to_53_bits p <= p + 2 ^ (Z.log2 p - 53)) /\
   (p < 2 ^ 53 -> round_to_53_bits p = p))%Z.
Proof.
  intros Hp. unfold round_to_53_bits.
  destruct (Z.leb_spec (Z.log2 p - 52)%Z 0%Z) as [Hk|Hk].
  - split; [exact Hp|]. split; [|reflexivity].
    intros Hbig. apply Z.log2_le_pow2 in Hbig; lia.
  - set (k := (Z.log2 p - 52)%Z) in *.
    assert (Hpos : (0 < p)%Z).
    { destruct (Z.eq_dec p 0%Z) as [->|]; [discriminate Hk|lia]. }
    assert (Hpow : (2 ^ k = 2 * 2 ^ (k - 1))%Z).
    { rewrite <- Z.pow_succ_r by lia. f_equal. lia. }
    assert (Hhalf : (0 < 2 ^ (k - 1))%Z) by (apply Z.pow_pos_nonneg; lia).
    assert (Hdm := Z.div_mod p (2 ^ k)%Z ltac:(lia)).
    assert (Hr := Z.mod_pos_bound p (2 ^ k)%Z ltac:(lia)).
    assert (Hq : (0 <= p / 2 ^ k)%Z) by (apply Z.div_pos; lia).
    replace (Z.log2 p - 53)%Z with (k - 1)%Z by lia.
    split; [destruct (_ || _)%bool; nia|]. split.
    + intros _.
      destruct (Z.ltb_spec (2 ^ (k - 1))%Z (p mod 2 ^ k)%Z) as [Hlt|Hge]; cbn [orb].
      * nia.
      * destruct (Z.eqb_spec (p mod 2 ^ k)%Z (2 ^ (k - 1))%Z) as [Heq|Hne]; cbn [andb].
        -- destruct (Z.odd _); nia.
        -- nia.
    + intros Hsmall. apply Z.log2_lt_pow2 in Hsmall; lia.
Qed.

(** [Math.floor(Math.random() * n)] is an index of an array of length [n]:
    the rounding of the product does not reach [n]. *)
Lemma floor_of_product_index u n :
  in_unit_interval u -> (0 < n)%nat ->
  (0 <= floor_of_product u n < Z.of_nat n)%Z.
Proof.
  intros [H53 Hone] Hn. unfold floor_of_product.
  set (m := Z.of_N (fr_numerator u)).
  set (e := Z.of_N (fr_exponent u)).
  assert (Hm : (0 <= m)%Z) by (subst m; lia).
  assert (Hm53 : (m < 2 ^ 53)%Z).
  { subst m. change (2 ^ 53)%Z with (Z.of_N (2 ^ 53)). lia. }
  assert (Hme : (m < 2 ^ e)%Z).
  { subst m e. change 2%Z with (Z.of_N 2). rewrite <- N2Z.inj_pow. lia. }
  assert (He : (0 < 2 ^ e)%Z) by (apply Z.pow_pos_nonneg; subst e; lia).
  set (p := (m * Z.of_nat n)%Z).
  assert (Hp : (0 <= p)%Z) by (subst p; nia).
  destruct (round_to_53_bits_bounds p Hp) as (Hlo & Hbig & Hsmall).
  split; [apply Z.div_pos; lia|].
  apply Z.div_lt_upper_bound; [exact He|].
  destruct (Z.lt_ge_cases p (2 ^ 53)%Z) as [Hlt|Hge].
  - rewrite (Hsmall Hlt). subst p. nia.
  - specialize (Hbig Hge).
    assert (Hpos : (0 < p)%Z) by lia.
    destruct (Z.log2_spec p Hpos) as [Hlog _].
    assert (H53le : (53 <= Z.log2 p)%Z) by (apply Z.log2_le_pow2; lia).
    assert (Hsplit : (2 ^ Z.log2 p = 2 ^ (Z.log2 p - 53) * 2 ^ 53)%Z).
    { rewrite <- Z.pow_add_r by lia. f_equal. lia. }
    assert (Hh : (0 < 2 ^ (Z.log2 p - 53))%Z) by (apply Z.pow_pos_nonneg; lia).
    assert (Hhn : (2 ^ (Z.log2 p - 53) < Z.of_nat n)%Z).
    { subst p. nia. }
    subst p. nia.
Qed.

(** The rounding is felt: three times the number [6004799503160661 / 2 ^ 53],
    which lies below two thirds, is rounded to 2. *)
Lemma floor_of_product_rounds :
  floor_of_product {| fr_numerator := 6004799503160661; fr_exponent := 53 |} 3 = 2%Z /\
  (6004799503160661 * 3 / 2 ^ 53 = 1)%Z.
Proof. split; vm_compute; reflexivity. Qed.

Lemma pick_some (l : list string) (u : fraction) :
  in_unit_interval u -> l <> [] -> exists c, pick l u = Some c /\ In c l.
Proof.
  intros Hu Hl. unfold pick, array_get.
  assert (Hn : (0 < length l)%nat) by (destruct l; [contradiction|simpl; lia]).
  destruct (floor_of_product_index u (length l) Hu Hn) as [H0 H1].
  destruct (Z.ltb_spec (floor_of_product u (length l)) 0%Z) as [Hneg|_]; [lia|].
  destruct (nth_error l (Z.to_nat (floor_of_product u (length l)))) as [c|] eqn:Hnth.
  - exists c. split; [reflexivity|]. eapply nth_error_In, Hnth.
  - apply nth_error_None in Hnth. lia.
Qed.

(** Nothing is picked from an empty array. *)
Lemma pick_nil (u : fraction) : pick [] u = None.
Proof.
  unfold pick, array_get. destruct (_ <? 0)%Z; [reflexivity|].
  destruct (Z.to_nat _); reflexivity.
Qed.

Lemma includes_false hand c : includes hand (VStr c) = false -> ~ In (VStr c) hand.
Proof.
  unfold includes. intros Hex Hin.
  assert (Ht : existsb (fun y => same_value_zero y (VStr c)) hand = true).
  { apply existsb_exists. exists (VStr c). split; [exact Hin|].
    simpl. apply String.eqb_refl. }
  congruence.
Qed.

Lemma includes_true hand c : includes hand (VStr c) = true -> In (VStr c) hand.
Proof.
  unfold includes. intros Hex. apply existsb_exists in Hex as (y & Hin & Hsame).
  destruct y; try discriminate Hsame.
  simpl in Hsame. apply String.eqb_eq in Hsame. subst. exact Hin.
Qed.

Lemma availableCards_fresh hand c :
  In c (availableCards hand) -> In c cardKeys /\ includes hand (VStr c) = false.
Proof.
  unfold availableCards. rewrite List.filter_In. intros [Hin Hneg].
  split; [exact Hin|]. destruct (includes hand (VStr c)); [discriminate|reflexivity].
Qed.

(** A card of the catalog that the hand does not hold is available. *)
Lemma availableCards_some hand key :
  In key (map fst cards) -> ~ In (VStr key) hand -> availableCards hand <> [].
Proof.
  intros Hkey Hfresh Hnil.
  assert (Hin : In key (availableCards hand)).
  { unfold availableCards. apply List.filter_In. split; [exact Hkey|].
    destruct (includes hand (VStr key)) eqn:Hinc; [|reflexivity].
    apply includes_true in Hinc. contradiction. }
  rewrite Hnil in Hin. exact Hin.
Qed.

Lemma NoDup_push {A : Type} (l : list A) (x : A) :
  NoDup l -> ~ In x l -> NoDup (l ++ [x]).
Proof.
  intros Hnd Hx. apply NoDup_app. split; [exact Hnd|]. split.
  - intros y Hy Hyx. apply list_elem_of_In in Hy, Hyx.
    destruct Hyx as [<-|[]]. exact (Hx Hy).
  - apply NoDup_singleton.
Qed.

(** What the hand is on a path, from what the store returned on it. *)
Ltac resolve_hand H :=
  unfold read_hand in H;
  repeat match goal with
         | E : truthy_opt (Some _) = _ |- _ =>
             cbn [truthy_opt truthy] in E; try discriminate E; try subst
         end;
  cbn [truthy_opt truthy] in H;
  repeat match type of H with
         | (if ?b then _ else _) = _ =>
             let E := fresh "E" in
             destruct b eqn:E; try clash; try congruence
         end;
  try discriminate H; simplify_eq.

(** The store in front of a lookup under another key. *)
Lemma kv_lookup_insert_ne now (store : gmap string kvEntry) key key' e :
  key' <> key -> kv_lookup now (<[key' := e]> store) key = kv_lookup now store key.
Proof. intros Hne. unfold kv_lookup. rewrite lookup_insert_ne by exact Hne. reflexivity. Qed.

(** The hand on a path, when the store returned the array [hand], or nothing
    and [hand] is empty. *)
Ltac stored_hand H :=
  destruct H as [H|[H ->]];
  repeat match goal with
         | E : ?x = _ |- _ =>
             match type of H with
             | x = _ => first [constr_eq E H; fail 1 | rewrite E in H]
             end
         end;
  try discriminate H;
  try match type of H with
      | _ = ?v =>
          match goal with
          | E : truthy_opt _ = ?b |- _ =>
              exfalso;
              assert (E' : truthy_opt v = b) by (rewrite <- H; exact E);
              discriminate E'
          end
      end;
  simplify_eq;
  repeat match goal with
         | E : truthy_opt (Some _) = _ |- _ =>
             cbn [truthy_opt truthy] in E; try discriminate E
         | E : truthy_opt None = _ |- _ =>
             cbn [truthy_opt] in E; try discriminate E
         end.

(** C1.  Let a draw read the hand of the player, under the key [user_hand:]
    followed by the player's identity: the array [hand] that the store held
    there when [drawCard] began, or nothing, the hand being empty then.  If
    some card of the catalog is not in [hand], the draw selects an identifier
    of the catalog that is not in [hand], appends it and stores the result
    under the same key: a hand without duplicates stays without duplicates.
    ([Math.random] yields binary64 numbers in [0, 1).) *)
Theorem drawCard_draws_fresh_card messageTs username w hand_found hand :
  (forall n, in_unit_interval (Math_random env n)) ->
  In (KvGet ("user_hand:" ++ username) hand_found)
     (store_ops (effects (drawCard messageTs username w))) ->
  hand_found = Some (VArr hand) \/ (hand_found = None /\ hand = []) ->
  (exists key, In key (map fst cards) /\ ~ In (VStr key) hand) ->
  (exists now,
     (clock w <= now <= clock (final (drawCard messageTs username w)))%Z /\
     hand_found = kv_lookup now (kv_store w) ("user_hand:" ++ username)) /\
  exists c u,
    In c (map fst cards) /\
    ~ In (VStr c) hand /\
    (exists pre,
       store_ops (effects (drawCard messageTs username w)) =
         (pre ++ [MathRandom u;
                  KvSet ("user_hand:" ++ username) (VArr (hand ++ [VStr c])) None])%list) /\
    kv_store (final (drawCard messageTs username w)) !! ("user_hand:" ++ username) =
      Some {| kv_value := VArr (hand ++ [VStr c]); kv_expires := None |} /\
    (NoDup hand -> NoDup (hand ++ [VStr c])).
Proof.
  intros Hrand.
  change ("user_hand:" ++ username) with (hand_key username).
  destruct (drawCard_observed messageTs username w) as (_ & -> & _ & ->).
  replace (clock w) with (clock (asked 0 w)) by (simpl; lia).
  change (kv_store w) with (kv_store (asked 0 w)).
  generalize (asked 0 w) as w0. intros w0.
  symex; intros Hin Hhand [key [Hcat Hnew]]; in_cases Hin; stored_hand Hhand.
  all: pose proof (availableCards_some _ _ Hcat Hnew) as Havail.
  all: rewrite ?kv_lookup_insert_ne in * by (apply keys_differ).
  all: split;
         [eexists; split; [|first [reflexivity|symmetry; eassumption]]; lia|].
  all: match goal with
       | |- context [pick (availableCards ?h) ?u] =>
           let k := fresh "k" in
           let Hpick := fresh "Hpick" in
           let Hk := fresh "Hk" in
           let Hkey := fresh "Hkey" in
           let Hfresh := fresh "Hfresh" in
           destruct (pick_some (availableCards h) u (Hrand _) Havail)
             as (k & Hpick & Hk);
           apply availableCards_fresh in Hk as [Hkey Hfresh];
           apply includes_false in Hfresh;
           exists k, u; rewrite Hpick; cbn [key_to_value];
           split; [exact Hkey|]; split; [exact Hfresh|]
       end.
  all: split; [eexists [_; _; _]; reflexivity|].
  all: rewrite lookup_insert_eq; split; [reflexivity|].
  all: intros Hnd; apply NoDup_push; assumption.
Qed.

(** *** Keys and texts *)

(** Every access of [drawCard] to the store uses one of the two keys of the
    player, and every message it sends begins with the player's mention. *)
Lemma drawCard_keys_and_texts messageTs username w :
  (forall e, In e (store_ops (effects (drawCard messageTs username w))) ->
     match e with
     | KvGet key _ | KvSet key _ _ =>
         key = "card_draw:" ++ username \/ key = "user_hand:" ++ username
     | _ => True
     end) /\
  (forall p reply, In (p, reply) (posted (effects (drawCard messageTs username w))) ->
     exists rest, mp_text p = mention username ++ " " ++ rest).
Proof.
  destruct (drawCard_observed messageTs username w) as (_ & _ & -> & ->).
  generalize (asked 0 w) as w0. intros w0.
  symex; (split; [intros eff Hin|intros prm rep Hin]); in_cases Hin;
    try exact I; try (left; reflexivity); try (right; reflexivity).
  all: unfold send_params, announcement; cbn [mp_text].
  all: try (eexists; reflexivity).
  all: eexists ("draws the " ++ _); reflexivity.
Qed.

(** C6, amended.  For a recognized draw request the actor is ["The Fool"]
    when the event carries a bot id and the event's user otherwise; the store
    is accessed under the two keys of that actor only; every message sent
    begins with the actor's name, rendered as the mention marker [<@id>] when
    the name starts with the letter U and verbatim otherwise, the latter being
    the case of ["The Fool"]. *)
Theorem handleMessageEvent_actor event w :
  ev_channel event = channelId ->
  strict_equal (ev_thread_ts event) (option_map root_messageTs (rootMessage w)) = true ->
  toUpperCase (trim (ev_text event)) = "DRAW" ->
  (actor event = if truthy_str (ev_bot_id event) then "The Fool" else ev_user event) /\
  (forall e, In e (store_ops (effects (handleMessageEvent event w))) ->
     match e with
     | KvGet key _ | KvSet key _ _ =>
         key = "card_draw:" ++ actor event \/ key = "user_hand:" ++ actor event
     | _ => True
     end) /\
  (forall p reply, In (p, reply) (posted (effects (handleMessageEvent event w))) ->
     exists rest, mp_text p = mention (actor event) ++ " " ++ rest) /\
  (startsWith (actor event) "U" = true ->
     mention (actor event) = "<@" ++ actor event ++ ">") /\
  (startsWith (actor event) "U" = false -> mention (actor event) = actor event) /\
  mention "The Fool" = "The Fool".
Proof.
  intros Hch Hth Htext.
  rewrite (handleMessageEvent_in_thread _ _ Hch Hth), Htext, String.eqb_refl.
  reduce. rewrite store_ops_app, posted_app.
  replace (store_ops match result _ with Return _ => _ | Throw _ => _ end)
    with (@nil effect) by (destruct (result _); reflexivity).
  replace (posted match result _ with Return _ => _ | Throw _ => _ end)
    with (@nil (messageParams * postReply)) by (destruct (result _); reflexivity).
  rewrite !app_nil_r.
  destruct (drawCard_keys_and_texts (ev_ts event) (actor event) w) as [Hkeys Htexts].
  split; [reflexivity|]. split; [exact Hkeys|]. split; [exact Htexts|].
  unfold mention. split; [intros ->; reflexivity|].
  split; [intros ->; reflexivity|reflexivity].
Qed.

(** *** Exhaustion *)

Lemma includes_push_undefined hand key :
  includes (hand ++ [VUndefined]) (VStr key) = includes hand (VStr key).
Proof.
  unfold includes. rewrite existsb_app. simpl. rewrite !orb_false_r. reflexivity.
Qed.

Lemma availableCards_push_undefined hand :
  availableCards (hand ++ [VUndefined]) = availableCards hand.
Proof.
  unfold availableCards. apply List.filter_ext. intros key.
  rewrite includes_push_undefined. reflexivity.
Qed.

Lemma push_duplicate {A : Type} (l : list A) (x : A) : In x l -> ~ NoDup (l ++ [x]).
Proof.
  intros Hin Hnd. apply NoDup_app in Hnd as (_ & Hdisj & _).
  apply (Hdisj x); [apply list_elem_of_In, Hin|apply list_elem_of_In; simpl; auto].
Qed.

(** C9, amended.  When every card of the catalog is in the hand (and no card
    has the identifier "undefined"), [drawCard] picks [undefined], appends it
    to the hand and stores the hand; it then raises a [TypeError] on reading
    the name of the card, before any announcement: the only message sent is
    the opening one, and there is no exhaustion response.  The hand stays
    exhausted, so that the next exhausted draw appends [undefined] again, to a
    hand that holds it already. *)
Theorem drawCard_exhausted messageTs username w hand_found hand :
  In (KvGet (hand_key username) hand_found)
     (store_ops (effects (drawCard messageTs username w))) ->
  read_hand hand_found = Some hand ->
  availableCards hand = [] ->
  card_of "undefined" = None ->
  (exists pre u,
     store_ops (effects (drawCard messageTs username w)) =
       (pre ++ [MathRandom u;
                KvSet (hand_key username) (VArr (hand ++ [VUndefined])) None])%list) /\
  kv_store (final (drawCard messageTs username w)) !! hand_key username =
    Some {| kv_value := VArr (hand ++ [VUndefined]); kv_expires := None |} /\
  result (drawCard messageTs username w) =
    Throw (TypeError "undefined is not an object (evaluating 'chosenCard.name')") /\
  (exists reply,
     posted (effects (drawCard messageTs username w)) =
       [(send_params (mention username ++ " " ++ transcript "drawing.start" ++ "...")
           (Some messageTs) None, reply)]) /\
  availableCards (hand ++ [VUndefined]) = [] /\
  ~ NoDup ((hand ++ [VUndefined]) ++ [VUndefined]).
Proof.
  destruct (drawCard_observed messageTs username w) as (-> & -> & -> & ->).
  generalize (asked 0 w) as w0. intros w0.
  symex; intros Hin Hread Havail Hundef; in_cases Hin; resolve_hand Hread.
  all: rewrite Havail, pick_nil in *; cbn [key_to_value key_to_string] in *.
  all: try congruence.
  all: split; [eexists [_; _; _], _; reflexivity|].
  all: rewrite lookup_insert_eq; split; [reflexivity|].
  all: split; [reflexivity|]; split; [eexists; reflexivity|].
  all: rewrite availableCards_push_undefined; split; [exact Havail|].
  all: apply push_duplicate, in_or_app; right; simpl; auto.
Qed.

(** *** A failed announcement *)

(** A post that was accepted on a path cannot be the one that failed. *)
Ltac refused :=
  match goal with
  | H1 : answer ?x = PostOk _, H2 : answer ?y = PostFail _ |- _ =>
      exfalso;
      exact (eq_ind (PostOk _) (fun a => match a with PostOk _ => True | _ => False end)
               I _ (eq_trans (eq_sym H1) H2))
  end.

(** C10.  When a card has been selected and recorded and a post is then
    refused by the gateway, that post is the announcement, the last message of
    the draw; [drawCard] raises the gateway's error and accesses the store no
    more: the hand with the card appended and the cooldown entry with its 30000
    ms are in the store when it ends. *)
Theorem drawCard_failed_announcement messageTs username w hand' p reply e :
  In (KvSet (hand_key username) (VArr hand') None)
     (store_ops (effects (drawCard messageTs username w))) ->
  In (p, reply) (posted (effects (drawCard messageTs username w))) ->
  answer reply = PostFail e ->
  result (drawCard messageTs username w) = Throw e /\
  (exists before,
     posted (effects (drawCard messageTs username w)) = (before ++ [(p, reply)])%list) /\
  (exists rest, mp_text p = mention username ++ " draws the " ++ rest) /\
  (exists before,
     store_ops (effects (drawCard messageTs username w)) =
       (before ++ [KvSet (hand_key username) (VArr hand') None])%list) /\
  kv_store (final (drawCard messageTs username w)) !! hand_key username =
    Some {| kv_value := VArr hand'; kv_expires := None |} /\
  exists t,
    kv_store (final (drawCard messageTs username w)) !! cooldown_key username =
      Some {| kv_value := VBool true; kv_expires := Some (t + 30000)%Z |} /\
    (clock w <= t <= clock (final (drawCard messageTs username w)))%Z.
Proof.
  destruct (drawCard_observed messageTs username w) as (-> & -> & -> & ->).
  replace (clock w) with (clock (asked 0 w)) by (simpl; lia).
  generalize (asked 0 w) as w0. intros w0.
  symex; intros Hset Hpost Hfail; in_cases Hset; in_cases Hpost; try refused.
  all: split; [f_equal; congruence|].
  all: split; [eexists [_]; reflexivity|].
  all: split; [eexists; reflexivity|].
  all: split; [eexists [_; _; _; _]; reflexivity|].
  all: rewrite lookup_insert_eq; split; [reflexivity|].
  all: eexists; rewrite lookup_insert_ne by (apply not_eq_sym, keys_differ).
  all: rewrite lookup_insert_eq; split; [reflexivity|lia].
Qed.

(** ** Further properties of the methods *)

Lemma strict_equal_true a b : strict_equal a b = true <-> a = b.
Proof.
  destruct a as [x|], b as [y|]; simpl; split; try discriminate; try reflexivity.
  - intros H. apply String.eqb_eq in H. congruence.
  - intros [= ->]. apply String.eqb_refl.
Qed.

(** *** The router *)

(** X1.  An event of a channel other than the configured one is ignored,
    whatever its thread and its text: [handleMessageEvent] returns, the state
    is untouched, and the only effects are two lines of log. *)
Theorem other_channel_is_ignored event w :
  ev_channel event <> channelId ->
  result (handleMessageEvent event w) = Return tt /\
  final (handleMessageEvent event w) = w /\
  effects (handleMessageEvent event w) =
    [ConsoleLog "Received message event:";
     ConsoleLog "Message is not in our channel, ignoring"].
Proof.
  intros Hch. rewrite (handleMessageEvent_other_channel _ _ Hch). auto.
Qed.

(** X2.  An event of the channel is ignored when a root message is loaded and
    the event is not a reply in its thread (it is in another thread, or in
    none), and also when no root message is loaded and the event is a reply
    in some thread: the state is untouched, whatever the text. *)
Theorem other_thread_is_ignored event w :
  ev_channel event = channelId ->
  match rootMessage w with
  | Some root => ev_thread_ts event <> Some (root_messageTs root)
  | None => ev_thread_ts event <> None
  end ->
  result (handleMessageEvent event w) = Return tt /\
  final (handleMessageEvent event w) = w /\
  effects (handleMessageEvent event w) =
    [ConsoleLog "Received message event:";
     ConsoleLog "Message is not in our thread, ignoring"].
Proof.
  intros Hch Hth.
  rewrite (handleMessageEvent_other_thread _ _ Hch); [auto|].
  destruct (strict_equal _ _) eqn:Heq; [|reflexivity].
  apply strict_equal_true in Heq.
  destruct (rootMessage w); simpl in Heq; contradiction.
Qed.

(** *** Sending *)

(** X4.  When [sendMessage] raises, the error is the one of the gateway for
    the single request made; it is logged, and neither the root message nor
    the file is touched, also for a message without thread id. *)
Theorem sendMessage_failure message threadTs username w e :
  result (sendMessage message threadTs username w) = Throw e ->
  (exists reply,
     posted (effects (sendMessage message threadTs username w)) =
       [(send_params message threadTs username, reply)] /\
     answer reply = PostFail e) /\
  errors_logged (effects (sendMessage message threadTs username w)) =
    ["Error sending message to Slack:"] /\
  rootMessage (final (sendMessage message threadTs username w)) = rootMessage w /\
  rootfile (final (sendMessage message threadTs username w)) = rootfile w.
Proof.
  rewrite sendMessage_run. cbn zeta.
  destruct (answer _) eqn:Hans.
  - destruct (truthy_str threadTs); [|destruct (Bun_write _ _ _)]; discriminate.
  - reduce. intros [= ->]. split; [eexists; split; [reflexivity|exact Hans]|].
    auto.
Qed.

(** X5.  Every call of [sendMessage] makes exactly one request to the
    gateway, for the configured channel and with the given text; it lasts as
    long as the gateway takes to answer, and it never accesses the key-value
    store. *)
Theorem sendMessage_one_request message threadTs username w :
  exists p reply,
    posted (effects (sendMessage message threadTs username w)) = [(p, reply)] /\
    mp_channel p = channelId /\
    mp_text p = message /\
    clock (final (sendMessage message threadTs username w)) =
      (clock w + Z.of_N (elapsed reply))%Z /\
    store_ops (effects (sendMessage message threadTs username w)) = [] /\
    kv_store (final (sendMessage message threadTs username w)) = kv_store w.
Proof.
  rewrite sendMessage_run. cbn zeta. eexists _, _.
  destruct (answer _);
    [destruct (truthy_str threadTs); [|destruct (Bun_write _ _ _)]|];
    reduce; do 3 (split; [reflexivity|]); (split; [lia|]); auto.
Qed.

(** *** The file *)


(** X7.  The root message survives on disk: after [sendMessage] posted a
    message without thread id and the write that it started has succeeded,
    any later [loadRootMessage] that can read the file yields the channel and
    the timestamp of the posted message, which is also what the sender holds
    in memory.  ([JSON.stringify] and [JSON.parse] are taken to round-trip
    the record.) *)
Theorem saved_root_message_is_loaded message threadTs username w x content w' :
  truthy_str threadTs = false ->
  result (sendMessage message threadTs username w) = Return x ->
  In (content, true) (written (effects (sendMessage message threadTs username w))) ->
  rootfile w' = rootfile (final (sendMessage message threadTs username w)) ->
  Bun_read (steps w') = true ->
  content = Some {| root_channelId := res_channel x; root_messageTs := res_ts x |} /\
  result (loadRootMessage w') = Return content /\
  result (loadRootMessage w') =
    Return (rootMessage (final (sendMessage message threadTs username w))).
Proof.
  rewrite sendMessage_run. cbn zeta. intros Hth. rewrite Hth.
  destruct (answer _); [|discriminate].
  destruct (Bun_write _ _ _); reduce; intros [= ->] Hin Hfile Hread;
    destruct Hin as [[= <-]|[]].
  unfold loadRootMessage, file_read. unfold_monad. rewrite Hread, Hfile. reduce.
  auto.
Qed.

(** *** The introductory sequence *)

Ltac reduce_time :=
  cbn beta iota zeta delta
    [prepend result final effects asked later set_rootMessage set_rootfile
     set_kv_store rootMessage rootfile kv_store clock steps app negb
     posted store_ops errors_logged flat_map List.filter].

(** Symbolic execution of [initialMessage], one goal per path. *)
Ltac symex_initial :=
  unfold initialMessage, sleep; unfold_monad;
  repeat first
    [ rewrite sendMessage_run
    | progress change (truthy_str None) with false
    | progress change (truthy_str (Some "The Fool")) with true
    | progress reduce_time
    | case_scrutinee ].

(** The run [t] is named and executed once, then the goal is read on each
    of its paths. *)
Ltac on_paths_of t exec :=
  let r := fresh "r" in
  let Hrun := fresh "Hrun" in
  remember t as r eqn:Hrun; revert Hrun; exec; intros ->; reduce_time.

(** A list that ends as asked, whatever number of items comes before. *)
Ltac ends_with :=
  first [ exists []; reflexivity
        | eexists [_]; reflexivity
        | eexists [_; _]; reflexivity
        | eexists [_; _; _]; reflexivity
        | eexists [_; _; _; _]; reflexivity ].

(** A timestamp found empty on a path, against what is known of it. *)
Ltac empty_ts :=
  match goal with
  | Hts : ?ts <> EmptyString, H : truthy_str (Some ?ts) = false |- _ =>
      rewrite (truthy_str_Some ts Hts) in H; discriminate H
  end.

Lemma initialMessage_root w x :
  result (initialMessage w) = Return x ->
  res_ts x <> EmptyString ->
  rootMessage (final (initialMessage w)) =
    Some {| root_channelId := res_channel x; root_messageTs := res_ts x |}.
Proof.
  on_paths_of (initialMessage w) symex_initial;
    intros Hres Hts; simplify_eq; try empty_ts; reflexivity.
Qed.

(** X8.  When [initialMessage] returns the reply [x] to its opening message
    (with a timestamp, as Slack gives), three messages were posted in order:
    the opening one outside any thread, then the narrator's remark and the
    narrator's DRAW, both in the thread of the opening message and under the
    name The Fool; the opening message is the root message in memory; at
    least nine seconds went by; the store was not accessed. *)
Theorem initialMessage_opens_the_thread w x :
  result (initialMessage w) = Return x ->
  res_ts x <> EmptyString ->
  (exists reply0 reply1 reply2,
     posted (effects (initialMessage w)) =
       [({| mp_channel := channelId; mp_text := joker;
            mp_thread_ts := None; mp_username := None |}, reply0);
        ({| mp_channel := channelId;
            mp_text := "ooooh! what's this deck of cards doing here?";
            mp_thread_ts := Some (res_ts x);
            mp_username := Some "The Fool" |}, reply1);
        ({| mp_channel := channelId; mp_text := "DRAW";
            mp_thread_ts := Some (res_ts x);
            mp_username := Some "The Fool" |}, reply2)] /\
     answer reply0 = PostOk x) /\
  rootMessage (final (initialMessage w)) =
    Some {| root_channelId := res_channel x; root_messageTs := res_ts x |} /\
  (clock w + 9000 <= clock (final (initialMessage w)))%Z /\
  store_ops (effects (initialMessage w)) = [] /\
  kv_store (final (initialMessage w)) = kv_store w.
Proof.
  on_paths_of (initialMessage w) symex_initial;
    intros Hres Hts; simplify_eq; try empty_ts.
  all: unfold send_params; rewrite ?(truthy_str_Some _ Hts).
  all: change (truthy_str None) with false;
       change (truthy_str (Some "The Fool")) with true; cbv iota.
  all: split; [eexists _, _, _; split; [reflexivity|assumption]|].
  all: split; [reflexivity|]; split; [lia|]; auto.
Qed.

(** X9.  The narrator plays first: once [initialMessage] has returned, the
    event by which Slack reports the narrator's own DRAW (an event of the
    channel, in the thread of the opening message, with a bot id) makes
    [handleMessageEvent] run [drawCard] for the actor The Fool. *)
Theorem initialMessage_echo_draws_for_the_fool w x event :
  result (initialMessage w) = Return x ->
  res_ts x <> EmptyString ->
  ev_channel event = channelId ->
  ev_thread_ts event = Some (res_ts x) ->
  ev_text event = "DRAW" ->
  truthy_str (ev_bot_id event) = true ->
  final (handleMessageEvent event (final (initialMessage w))) =
    final (drawCard (ev_ts event) "The Fool" (final (initialMessage w))) /\
  exists ok rest,
    effects (handleMessageEvent event (final (initialMessage w))) =
      ConsoleLog "Received message event:"
      :: ConsoleLog "DRAW command detected, calling drawCard with messageTs:"
      :: Reaction (beachball (ev_ts event)) ok
      :: rest.
Proof.
  intros Hres Hts Hch Hth Htext Hbot.
  rewrite handleMessageEvent_in_thread;
    [|exact Hch
     |rewrite (initialMessage_root _ _ Hres Hts), Hth; simpl; apply String.eqb_refl].
  rewrite Htext. unfold actor. rewrite Hbot. reduce.
  split; [reflexivity|].
  destruct (drawCard_reacts (ev_ts event) "The Fool" (final (initialMessage w)))
    as (ok & rest & ->).
  eexists _, _. reflexivity.
Qed.

(** X10.  When [initialMessage] raises, the error is the one of the gateway
    for the last request made; it is logged by [sendMessage] and then by
    [initialMessage]; the store was not accessed.  If the refused request is
    the opening message, the root message and the file are as they were; if
    it is a later one, the opening message (with a timestamp) is the root
    message all the same. *)
Theorem initialMessage_failure w e :
  result (initialMessage w) = Throw e ->
  (exists before p reply,
     posted (effects (initialMessage w)) = (before ++ [(p, reply)])%list /\
     answer reply = PostFail e) /\
  (exists before,
     errors_logged (effects (initialMessage w)) =
       (before ++ ["Error sending message to Slack:";
                   "Error sending initial message:"])%list) /\
  store_ops (effects (initialMessage w)) = [] /\
  kv_store (final (initialMessage w)) = kv_store w /\
  (forall p0 reply0 rest,
     posted (effects (initialMessage w)) = (p0, reply0) :: rest ->
     match answer reply0 with
     | PostFail _ =>
         rest = [] /\
         rootMessage (final (initialMessage w)) = rootMessage w /\
         rootfile (final (initialMessage w)) = rootfile w
     | PostOk x0 =>
         res_ts x0 <> EmptyString ->
         rootMessage (final (initialMessage w)) =
           Some {| root_channelId := res_channel x0; root_messageTs := res_ts x0 |}
     end).
Proof.
  on_paths_of (initialMessage w) symex_initial; intros Hres; simplify_eq.
  all: split;
    [first [ exists []; eexists _, _; split; [reflexivity|assumption]
           | eexists [_]; eexists _, _; split; [reflexivity|assumption]
           | eexists [_; _]; eexists _, _; split; [reflexivity|assumption] ]|].
  all: split; [ends_with|]; split; [reflexivity|]; split; [reflexivity|].
  all: intros p0 reply0 rest [= <- <- <-].
  all: repeat match goal with
              | H : answer ?r = _ |- context [answer ?r] => rewrite H
              end.
  all: try (intros Hts; try empty_ts); auto.
Qed.

(** *** More on the draw *)

Lemma cooldown_key_inj a b : cooldown_key a = cooldown_key b -> a = b.
Proof. unfold cooldown_key. cbn. intros [= H]. exact H. Qed.

Lemma hand_key_inj a b : hand_key a = hand_key b -> a = b.
Proof. unfold hand_key. cbn. intros [= H]. exact H. Qed.

(** The [try] block of [drawCard], executed once. *)
Ltac on_draw_paths messageTs username w :=
  on_paths_of (drawCard_try messageTs username (mention username) (asked 0 w)) symex.

(** X11.  A draw changes nothing in the store but the cooldown entry and the
    hand of its actor: every other key, and so the cooldown entry and the
    hand of every other player, holds after [drawCard] what it held before. *)
Theorem drawCard_touches_only_the_actor messageTs username w :
  (forall key,
     key <> cooldown_key username -> key <> hand_key username ->
     kv_store (final (drawCard messageTs username w)) !! key = kv_store w !! key) /\
  (forall other,
     other <> username ->
     kv_store (final (drawCard messageTs username w)) !! cooldown_key other =
       kv_store w !! cooldown_key other /\
     kv_store (final (drawCard messageTs username w)) !! hand_key other =
       kv_store w !! hand_key other).
Proof.
  assert (Hkey : forall key,
            key <> cooldown_key username -> key <> hand_key username ->
            kv_store (final (drawCard messageTs username w)) !! key =
              kv_store w !! key).
  { intros key Hc Hh.
    destruct (drawCard_observed messageTs username w) as (_ & -> & _ & _).
    on_draw_paths messageTs username w;
      rewrite ?lookup_insert_ne by (apply not_eq_sym; assumption); reflexivity. }
  split; [exact Hkey|]. intros other Hother. split; apply Hkey.
  - intros H. apply cooldown_key_inj in H. contradiction.
  - apply keys_differ.
  - apply not_eq_sym, keys_differ.
  - intros H. apply hand_key_inj in H. contradiction.
Qed.

Lemma drawCard_keeps_root messageTs username w :
  messageTs <> EmptyString ->
  rootMessage (final (drawCard messageTs username w)) = rootMessage w /\
  rootfile (final (drawCard messageTs username w)) = rootfile w.
Proof.
  intros Hts.
  destruct (drawCard_observed messageTs username w) as (_ & -> & _ & _).
  on_draw_paths messageTs username w; auto.
Qed.

(** X12.  Handling an event never moves the root message: whatever the event
    (with a timestamp, as Slack gives) and whatever the gateway answers, the
    root message in memory and the file are after [handleMessageEvent] what
    they were before; the same holds of [drawCard] alone. *)
Theorem handleMessageEvent_keeps_the_root_message :
  (forall event w,
     ev_ts event <> EmptyString ->
     rootMessage (final (handleMessageEvent event w)) = rootMessage w /\
     rootfile (final (handleMessageEvent event w)) = rootfile w) /\
  (forall messageTs username w,
     messageTs <> EmptyString ->
     rootMessage (final (drawCard messageTs username w)) = rootMessage w /\
     rootfile (final (drawCard messageTs username w)) = rootfile w).
Proof.
  split; [|exact drawCard_keeps_root].
  intros event w Hts.
  destruct (String.eqb_spec (ev_channel event) channelId) as [Hch|Hch].
  - destruct (strict_equal (ev_thread_ts event)
                (option_map root_messageTs (rootMessage w))) eqn:Hth.
    + rewrite (handleMessageEvent_in_thread _ _ Hch Hth).
      destruct (String.eqb _ "DRAW"); reduce; [|auto].
      apply drawCard_keeps_root, Hts.
    + rewrite (handleMessageEvent_other_thread _ _ Hch Hth). auto.
  - rewrite (handleMessageEvent_other_channel _ _ Hch). auto.
Qed.

(** X13.  A refused opening message costs the player nothing: when the first
    request of [drawCard] is refused by the gateway, [drawCard] raises that
    error, makes no other request and does not access the store, so that no
    cooldown entry is written and no card is drawn. *)
Theorem refused_opening_costs_nothing messageTs username w p reply rest e :
  posted (effects (drawCard messageTs username w)) = (p, reply) :: rest ->
  answer reply = PostFail e ->
  result (drawCard messageTs username w) = Throw e /\
  rest = [] /\
  store_ops (effects (drawCard messageTs username w)) = [] /\
  kv_store (final (drawCard messageTs username w)) = kv_store w.
Proof.
  destruct (drawCard_observed messageTs username w) as (-> & -> & -> & ->).
  on_draw_paths messageTs username w; intros Hpost Hfail; simplify_eq;
    try refused; (split; [congruence|auto]).
Qed.

(** X14.  The card announced is the card recorded: when [drawCard] has
    written a hand and returns normally, it has read the hand of the player
    from the store, the hand written is the array that the store returned
    (the empty one if it returned no array) with the picked identifier
    appended, the identifier was picked among the cards not in that hand with
    the number drawn from [Math.random], and the second and last message is
    the announcement made of the catalog entry and of the flavor text of that
    very identifier. *)
Theorem announced_card_is_recorded_card messageTs username w hand' :
  In (KvSet (hand_key username) (VArr hand') None)
     (store_ops (effects (drawCard messageTs username w))) ->
  result (drawCard messageTs username w) = Return tt ->
  exists hand_found u picked card reply0 reply1,
    let hand := match hand_found with Some (VArr stored) => stored | _ => [] end in
    In (KvGet (hand_key username) hand_found)
       (store_ops (effects (drawCard messageTs username w))) /\
    hand' = (hand ++ [key_to_value picked])%list /\
    picked = pick (availableCards hand) u /\
    In (MathRandom u) (store_ops (effects (drawCard messageTs username w))) /\
    card_of (key_to_string picked) = Some card /\
    posted (effects (drawCard messageTs username w)) =
      [(send_params (mention username ++ " " ++ transcript "drawing.start" ++ "...")
          (Some messageTs) None, reply0);
       (send_params
          (announcement (mention username) card
             (transcript ("cards." ++ key_to_string picked ++ ".flavor")))
          (Some messageTs) None, reply1)].
Proof.
  destruct (drawCard_observed messageTs username w) as (-> & _ & -> & ->).
  on_draw_paths messageTs username w; intros Hset Hres; simplify_eq;
    in_cases Hset.
  all: try match goal with
           | E : truthy_opt ?f = false
             |- context [KvGet (hand_key _) ?f :: MathRandom _ :: _] =>
               destruct f as [[]|]; cbn [truthy_opt truthy] in E; try discriminate E
           end.
  all: match goal with
       | |- context [KvGet (hand_key _) ?f :: MathRandom _ :: _] => exists f
       end.
  all: eexists _, _, _, _, _; cbn zeta beta iota.
  all: split; [right; right; left; reflexivity|].
  all: split; [reflexivity|]; split; [reflexivity|].
  all: split; [right; right; right; left; reflexivity|].
  all: split; [eassumption|reflexivity].
Qed.

(** X15.  Whatever [drawCard] writes in the store is either the cooldown
    marker of the actor ([true], for 30000 ms) or the hand of the actor,
    without expiry, made of the hand that was read and of one more element:
    a draw never removes a card from a hand. *)
Theorem drawCard_writes messageTs username w key v ttl :
  In (KvSet key v ttl) (store_ops (effects (drawCard messageTs username w))) ->
  (key = cooldown_key username /\ v = VBool true /\ ttl = Some 30000%Z) \/
  (key = hand_key username /\ ttl = None /\
   exists hand_found hand x,
     In (KvGet (hand_key username) hand_found)
        (store_ops (effects (drawCard messageTs username w))) /\
     read_hand hand_found = Some hand /\
     v = VArr (hand ++ [x])).
Proof.
  destruct (drawCard_observed messageTs username w) as (_ & _ & _ & ->).
  on_draw_paths messageTs username w; intros Hset; in_cases Hset;
    try (left; auto; fail); right; (split; [reflexivity|]); (split; [reflexivity|]).
  all: first
    [ eexists _, _, _; split; [right; right; left; reflexivity|];
      split; [reflexivity|reflexivity]
    | eexists _, [], _; split; [right; right; left; reflexivity|]; split;
      [unfold read_hand;
       match goal with
       | H : truthy_opt ?f = false |- context [truthy_opt ?f] => rewrite H
       end; reflexivity
      |reflexivity] ].
Qed.

(** *** The cooldown window *)

(** Once the cooldown marker is written, the store holds it with its expiry
    when [drawCard] ends. *)
Lemma drawCard_cooldown_written messageTs username w :
  In (KvSet (cooldown_key username) (VBool true) (Some 30000%Z))
     (store_ops (effects (drawCard messageTs username w))) ->
  exists t,
    (clock w <= t <= clock (final (drawCard messageTs username w)))%Z /\
    kv_store (final (drawCard messageTs username w)) !! cooldown_key username =
      Some {| kv_value := VBool true; kv_expires := Some (t + 30000)%Z |}.
Proof.
  destruct (drawCard_observed messageTs username w) as (_ & -> & _ & ->).
  on_draw_paths messageTs username w; intros Hset; in_cases Hset.
  all: eexists; rewrite ?lookup_insert_ne by (apply not_eq_sym, keys_differ).
  all: rewrite lookup_insert_eq; (split; [|reflexivity]); lia.
Qed.

(** After an accepted opening message, what the store holds under the
    cooldown key when the reply arrives decides between the refusal and the
    draw. *)
Lemma drawCard_at_the_gate messageTs username w x :
  answer (chat_postMessage env (S (steps w))
            (send_params (mention username ++ " " ++ transcript "drawing.start" ++ "...")
               (Some messageTs) None)) = PostOk x ->
  exists now found,
    now = (clock w +
           Z.of_N (elapsed (chat_postMessage env (S (steps w))
                     (send_params
                        (mention username ++ " " ++ transcript "drawing.start" ++ "...")
                        (Some messageTs) None))))%Z /\
    found = kv_lookup now (kv_store w) (cooldown_key username) /\
    if truthy_opt found then
      store_ops (effects (drawCard messageTs username w)) =
        [KvGet (cooldown_key username) found] /\
      kv_store (final (drawCard messageTs username w)) = kv_store w
    else
      exists hand_found rest,
        store_ops (effects (drawCard messageTs username w)) =
          KvGet (cooldown_key username) found
          :: KvSet (cooldown_key username) (VBool true) (Some 30000%Z)
          :: KvGet (hand_key username) hand_found
          :: rest.
Proof.
  intros Hok.
  destruct (drawCard_observed messageTs username w) as (_ & -> & _ & ->).
  on_draw_paths messageTs username w; try discriminate Hok.
  all: match goal with
       | H : truthy_opt (kv_lookup ?t (kv_store ?s) (cooldown_key ?u)) = _
         |- _ =>
           exists t, (kv_lookup t (kv_store s) (cooldown_key u));
           split; [lia|]; split; [reflexivity|]; rewrite H
       end.
  all: first [ split; reflexivity | eexists _, _; reflexivity ].
Qed.

(** X16.  The cooldown window between two draws of a player.  Let a first
    draw have written the cooldown marker, at the instant [t], and let the
    marker be untouched since.  A second draw of the same player whose
    opening message is answered before [t] + 30000 ms finds the marker: it
    accesses the store no further and leaves it as it is.  One whose opening
    message is answered at [t] + 30000 ms or later finds nothing, writes a
    new marker and goes on to read the hand. *)
Theorem second_draw_and_the_cooldown messageTs1 messageTs2 username w w2 x2 :
  In (KvSet (cooldown_key username) (VBool true) (Some 30000%Z))
     (store_ops (effects (drawCard messageTs1 username w))) ->
  kv_store w2 !! cooldown_key username =
    kv_store (final (drawCard messageTs1 username w)) !! cooldown_key username ->
  answer (chat_postMessage env (S (steps w2))
            (send_params (mention username ++ " " ++ transcript "drawing.start" ++ "...")
               (Some messageTs2) None)) = PostOk x2 ->
  exists t now,
    (clock w <= t <= clock (final (drawCard messageTs1 username w)))%Z /\
    now = (clock w2 +
           Z.of_N (elapsed (chat_postMessage env (S (steps w2))
                     (send_params
                        (mention username ++ " " ++ transcript "drawing.start" ++ "...")
                        (Some messageTs2) None))))%Z /\
    ((now < t + 30000)%Z ->
       store_ops (effects (drawCard messageTs2 username w2)) =
         [KvGet (cooldown_key username) (Some (VBool true))] /\
       kv_store (final (drawCard messageTs2 username w2)) = kv_store w2) /\
    ((t + 30000 <= now)%Z ->
       exists hand_found rest,
         store_ops (effects (drawCard messageTs2 username w2)) =
           KvGet (cooldown_key username) None
           :: KvSet (cooldown_key username) (VBool true) (Some 30000%Z)
           :: KvGet (hand_key username) hand_found
           :: rest).
Proof.
  intros Hset Hsame Hok.
  destruct (drawCard_cooldown_written _ _ _ Hset) as (t & Ht & Hstore).
  destruct (drawCard_at_the_gate _ _ _ _ Hok) as (now & found & Hnow & Hfound & Hgate).
  exists t, now. split; [exact Ht|]. split; [exact Hnow|].
  assert (Hlook : found = if (now <? t + 30000)%Z then Some (VBool true) else None).
  { rewrite Hfound. unfold kv_lookup, kv_live. rewrite Hsame, Hstore. reflexivity. }
  rewrite Hlook in Hgate.
  destruct (Z.ltb_spec now (t + 30000)) as [Hlt|Hge]; simpl in Hgate.
  - split; [intros _; exact Hgate|intros Hge; lia].
  - split; [intros Hlt; lia|intros _; exact Hgate].
Qed.

(** *** The command *)

Lemma trimStart_white ws s : all_white ws = true -> trimStart (ws ++ s) = trimStart s.
Proof.
  induction ws as [|c ws IH]; simpl; [reflexivity|].
  destruct (is_white_space c); [exact IH|discriminate].
Qed.

Lemma trimEnd_white ws : all_white ws = true -> trimEnd ws = EmptyString.
Proof.
  induction ws as [|c ws IH]; simpl; [reflexivity|].
  destruct (is_white_space c); [|discriminate].
  intros H. rewrite (IH H). reflexivity.
Qed.

Lemma trimEnd_app_white s ws : all_white ws = true -> trimEnd (s ++ ws) = trimEnd s.
Proof.
  intros Hws. induction s as [|c s IH]; simpl.
  - apply trimEnd_white, Hws.
  - rewrite IH. reflexivity.
Qed.

Lemma trimStart_decompose s :
  exists ws, all_white ws = true /\ s = ws ++ trimStart s.
Proof.
  induction s as [|c s (ws & Hws & Hs)]; simpl.
  - exists EmptyString. auto.
  - destruct (is_white_space c) eqn:Hc.
    + exists (String c ws). split; [simpl; rewrite Hc; exact Hws|].
      change (String c s = String c (ws ++ trimStart s)). f_equal. exact Hs.
    + exists EmptyString. auto.
Qed.

Lemma trimEnd_decompose s :
  exists ws, all_white ws = true /\ s = trimEnd s ++ ws.
Proof.
  induction s as [|c s (ws & Hws & Hs)]; simpl.
  - exists EmptyString. auto.
  - destruct (trimEnd s) as [|c' t] eqn:Ht.
    + change (s = ws) in Hs. subst s. destruct (is_white_space c) eqn:Hc.
      * exists (String c ws). split; [simpl; rewrite Hc; exact Hws|reflexivity].
      * exists ws. split; [exact Hws|reflexivity].
    + exists ws. split; [exact Hws|].
      change (String c s = String c (String c' t ++ ws)). f_equal. exact Hs.
Qed.

(** The letters that [toUpperCase] sends to a capital letter of DRAW. *)
Lemma upper_ascii_letter (c : ascii) :
  (upper_ascii c = "D"%char -> c = "d"%char \/ c = "D"%char) /\
  (upper_ascii c = "R"%char -> c = "r"%char \/ c = "R"%char) /\
  (upper_ascii c = "A"%char -> c = "a"%char \/ c = "A"%char) /\
  (upper_ascii c = "W"%char -> c = "w"%char \/ c = "W"%char).
Proof.
  destruct c as [[] [] [] [] [] [] [] []]; vm_compute;
    repeat split; intros H; first [discriminate H | auto].
Qed.

(** The texts that are the command: the four letters of DRAW, each in either
    case, between white space. *)
Lemma draw_grammar text :
  toUpperCase (trim text) = "DRAW" <->
  exists ws1 ws2 d r a w,
    all_white ws1 = true /\ all_white ws2 = true /\
    (d = "d" \/ d = "D")%char /\ (r = "r" \/ r = "R")%char /\
    (a = "a" \/ a = "A")%char /\ (w = "w" \/ w = "W")%char /\
    text = ws1 ++ String d (String r (String a (String w EmptyString))) ++ ws2.
Proof.
  split.
  - intros Hup. unfold trim in Hup.
    destruct (trimStart_decompose text) as (ws1 & Hws1 & Htext).
    destruct (trimEnd_decompose (trimStart text)) as (ws2 & Hws2 & Hrest).
    destruct (trimEnd (trimStart text)) as [|d [|r [|a [|w [|? ?]]]]];
      try discriminate Hup.
    simpl in Hup. injection Hup as Hd Hr Ha Hw.
    exists ws1, ws2, d, r, a, w.
    split; [exact Hws1|]. split; [exact Hws2|].
    split; [apply upper_ascii_letter, Hd|]. split; [apply upper_ascii_letter, Hr|].
    split; [apply upper_ascii_letter, Ha|]. split; [apply upper_ascii_letter, Hw|].
    rewrite Htext at 1. rewrite Hrest at 1. reflexivity.
  - intros (ws1 & ws2 & d & r & a & w & Hws1 & Hws2 & Hd & Hr & Ha & Hw & ->).
    unfold trim. rewrite (trimStart_white _ _ Hws1).
    assert (Hstart : trimStart (String d (String r (String a (String w EmptyString))) ++ ws2) =
                     String d (String r (String a (String w EmptyString))) ++ ws2).
    { destruct Hd as [-> | ->]; reflexivity. }
    rewrite Hstart, (trimEnd_app_white _ _ Hws2).
    destruct Hd as [-> | ->], Hr as [-> | ->], Ha as [-> | ->], Hw as [-> | ->];
      reflexivity.
Qed.

(** X17.  For an event of the channel in the thread of the root message, the
    draw is triggered exactly by the texts made of the four letters of DRAW,
    each in either case, with any white space before and after and nothing
    else (the texts being sequences of code units below 256). *)
Theorem draw_command_texts event w :
  ev_channel event = channelId ->
  strict_equal (ev_thread_ts event) (option_map root_messageTs (rootMessage w)) = true ->
  ((exists ok, In (Reaction (beachball (ev_ts event)) ok)
                  (effects (handleMessageEvent event w)))
   <->
   exists ws1 ws2 d r a w,
     all_white ws1 = true /\ all_white ws2 = true /\
     (d = "d" \/ d = "D")%char /\ (r = "r" \/ r = "R")%char /\
     (a = "a" \/ a = "A")%char /\ (w = "w" \/ w = "W")%char /\
     ev_text event =
       ws1 ++ String d (String r (String a (String w EmptyString))) ++ ws2).
Proof.
  intros Hch Hth. rewrite <- draw_grammar.
  rewrite (handleMessageEvent_in_thread _ _ Hch Hth).
  destruct (String.eqb_spec (toUpperCase (trim (ev_text event))) "DRAW") as [He|Hne].
  - split; [intros _; exact He|intros _]. reduce.
    destruct (drawCard_reacts (ev_ts event) (actor event) w) as (ok & rest & ->).
    exists ok. simpl. auto.
  - split; [|contradiction]. intros [ok Hin]. not_in Hin.
Qed.

(** X18.  Posting a new root message retargets the router: after
    [sendMessage] posted a message without thread id, an event of the channel
    is a draw request only if it replies in the thread of that message;
    replies in any other thread, among them the thread of the former root
    message, are ignored. *)
Theorem new_root_message_retargets_the_router message threadTs username w x event :
  truthy_str threadTs = false ->
  result (sendMessage message threadTs username w) = Return x ->
  ev_channel event = channelId ->
  (ev_thread_ts event <> Some (res_ts x) ->
     final (handleMessageEvent event
              (final (sendMessage message threadTs username w))) =
       final (sendMessage message threadTs username w) /\
     effects (handleMessageEvent event
                (final (sendMessage message threadTs username w))) =
       [ConsoleLog "Received message event:";
        ConsoleLog "Message is not in our thread, ignoring"]) /\
  (ev_thread_ts event = Some (res_ts x) ->
   toUpperCase (trim (ev_text event)) = "DRAW" ->
   exists ok,
     In (Reaction (beachball (ev_ts event)) ok)
        (effects (handleMessageEvent event
                    (final (sendMessage message threadTs username w))))).
Proof.
  intros Hth Hres Hch.
  assert (Hroot : rootMessage (final (sendMessage message threadTs username w)) =
                  Some {| root_channelId := res_channel x;
                          root_messageTs := res_ts x |}).
  { revert Hres. rewrite sendMessage_run. cbn zeta. rewrite Hth.
    destruct (answer _); [|discriminate].
    destruct (Bun_write _ _ _); reduce; intros [= ->]; reflexivity. }
  split.
  - intros Hne. rewrite handleMessageEvent_other_thread; [auto|exact Hch|].
    rewrite Hroot. destruct (strict_equal _ _) eqn:Heq; [|reflexivity].
    apply strict_equal_true in Heq. simpl in Heq. contradiction.
  - intros Heq Htext.
    rewrite handleMessageEvent_in_thread;
      [|exact Hch|rewrite Hroot, Heq; simpl; apply String.eqb_refl].
    rewrite Htext. reduce.
    destruct (drawCard_reacts (ev_ts event) (actor event)
                (final (sendMessage message threadTs username w)))
      as (ok & rest & ->).
    exists ok. simpl. auto.
Qed.

(** *** More on the file and on the messages of a draw *)

(** X20.  [saveRootMessage] reports nothing: it never raises and never logs.
    It starts one write of the root message held in memory and returns at
    once, and it changes neither that root message nor the store.  The file
    holds the root message if the write succeeds, and stays as it was if the
    write fails: a failed write is not logged. *)
Theorem saveRootMessage_reports_nothing w :
  result (saveRootMessage w) = Return tt /\
  rootMessage (final (saveRootMessage w)) = rootMessage w /\
  kv_store (final (saveRootMessage w)) = kv_store w /\
  clock (final (saveRootMessage w)) = clock w /\
  errors_logged (effects (saveRootMessage w)) = [] /\
  exists ok,
    effects (saveRootMessage w) = [FileWrite (rootMessage w) ok] /\
    rootfile (final (saveRootMessage w)) = if ok then rootMessage w else rootfile w.
Proof.
  unfold saveRootMessage. unfold_monad. reduce.
  destruct (Bun_write env (steps w) (rootMessage w)); reduce;
    do 3 (split; [reflexivity|]); (split; [apply Z.add_0_r|]);
    (split; [reflexivity|]); eexists; split; reflexivity.
Qed.

(** X21.  The messages of a draw stay in the thread: [drawCard] makes one or
    two requests to the gateway, the first being the opening message, and each
    is for the configured channel, in the thread of the triggering message
    (given with its timestamp), under no name of its own. *)
Theorem drawCard_messages_are_threaded messageTs username w :
  messageTs <> EmptyString ->
  (exists reply0 rest,
     posted (effects (drawCard messageTs username w)) =
       ({| mp_channel := channelId;
           mp_text := mention username ++ " " ++ transcript "drawing.start" ++ "...";
           mp_thread_ts := Some messageTs;
           mp_username := None |}, reply0) :: rest /\
     length rest <= 1) /\
  (forall p reply,
     In (p, reply) (posted (effects (drawCard messageTs username w))) ->
     mp_channel p = channelId /\
     mp_thread_ts p = Some messageTs /\
     mp_username p = None).
Proof.
  intros Hts.
  destruct (drawCard_observed messageTs username w) as (_ & _ & -> & _).
  on_draw_paths messageTs username w;
    rewrite ?(send_params_threaded _ _ Hts);
    (split; [eexists _, _; split; [reflexivity|simpl; lia]|]);
    intros p reply Hin; in_cases Hin; auto.
Qed.

End SlackBot.

(** ** The properties on the sample data *)

Lemma sendMessage_session_witness :
  truthy_str None = false /\
  result (sendMessage Sample.channel Sample.accepting "joker" None None Sample.fresh) =
    Return Sample.accepted /\
  rootMessage (final (sendMessage Sample.channel Sample.accepting "joker" None None
                        Sample.fresh)) =
    Some {| root_channelId := Sample.channel; root_messageTs := "1700000000.000200" |} /\
  rootfile (final (sendMessage Sample.channel Sample.accepting "joker" None None
                     Sample.fresh)) =
    Some {| root_channelId := Sample.channel; root_messageTs := "1700000000.000200" |} /\
  truthy_str (Some Sample.root_ts) = true /\
  rootMessage (final (sendMessage Sample.channel Sample.accepting "hello"
                        (Some Sample.root_ts) None Sample.playing)) =
    rootMessage Sample.playing /\
  rootfile (final (sendMessage Sample.channel Sample.accepting "hello"
                     (Some Sample.root_ts) None Sample.playing)) =
    rootfile Sample.playing.
Proof.
  destruct (proj1 (sendMessage_session Sample.channel Sample.accepting
                     "joker" None None Sample.fresh) eq_refl Sample.accepted eq_refl)
    as (_ & Hroot & (ok & Hwritten & Hfile) & _).
  destruct (proj2 (sendMessage_session Sample.channel Sample.accepting
                     "hello" (Some Sample.root_ts) None Sample.playing) eq_refl)
    as (Hroot' & Hfile' & _).
  assert (Hok : ok = true).
  { vm_compute in Hwritten. injection Hwritten as Hok. symmetry. exact Hok. }
  rewrite Hok in Hfile.
  split; [reflexivity|]. split; [reflexivity|]. split; [exact Hroot|].
  split; [exact Hfile|]. split; [reflexivity|]. split; [exact Hroot'|exact Hfile'].
Defined.

Lemma handleMessageEvent_draw_command_witness :
  ev_channel (Sample.reply_of "U1" " draw ") = Sample.channel /\
  strict_equal (ev_thread_ts (Sample.reply_of "U1" " draw "))
    (option_map root_messageTs (rootMessage Sample.playing)) = true /\
  exists ok,
    In (Reaction (beachball Sample.channel "1700000000.000300") ok)
       (effects (handleMessageEvent Sample.channel Sample.cards Sample.transcript
                   Sample.accepting (Sample.reply_of "U1" " draw ") Sample.playing)).
Proof.
  split; [reflexivity|]. split; [reflexivity|].
  destruct (handleMessageEvent_draw_command Sample.channel Sample.cards
              Sample.transcript Sample.accepting
              (Sample.reply_of "U1" " draw ") Sample.playing eq_refl eq_refl)
    as (_ & _ & Hiff & _).
  apply Hiff. reflexivity.
Defined.

Lemma handleMessageEvent_no_session_draws_witness :
  ev_channel (Sample.top_level "U1" "DRAW") = Sample.channel /\
  rootMessage Sample.fresh = None /\
  ev_thread_ts (Sample.top_level "U1" "DRAW") = None /\
  toUpperCase (trim (ev_text (Sample.top_level "U1" "DRAW"))) = "DRAW" /\
  exists ok,
    In (Reaction (beachball Sample.channel "1700000000.000300") ok)
       (effects (handleMessageEvent Sample.channel Sample.cards Sample.transcript
                   Sample.accepting (Sample.top_level "U1" "DRAW") Sample.fresh)).
Proof.
  do 4 (split; [reflexivity|]).
  apply (handleMessageEvent_no_session_draws Sample.channel Sample.cards
           Sample.transcript Sample.accepting
           (Sample.top_level "U1" "DRAW") Sample.fresh eq_refl eq_refl eq_refl eq_refl).
Defined.

Lemma handleMessageEvent_actor_witness :
  ev_channel (Sample.reply_of "U1" "draw") = Sample.channel /\
  strict_equal (ev_thread_ts (Sample.reply_of "U1" "draw"))
    (option_map root_messageTs (rootMessage Sample.playing)) = true /\
  toUpperCase (trim (ev_text (Sample.reply_of "U1" "draw"))) = "DRAW" /\
  startsWith (actor (Sample.reply_of "U1" "draw")) "U" = true /\
  mention (actor (Sample.reply_of "U1" "draw")) = "<@U1>".
Proof.
  do 4 (split; [reflexivity|]).
  destruct (handleMessageEvent_actor Sample.channel Sample.cards
              Sample.transcript Sample.accepting
              (Sample.reply_of "U1" "draw") Sample.playing eq_refl eq_refl eq_refl)
    as (_ & _ & _ & Hmention & _).
  apply Hmention. reflexivity.
Defined.

(** C6 as stated fails: a player identity that does not start with the letter
    U (Slack also issues identifiers that start with W) is an actor whose
    name is rendered verbatim in every message, not as a mention marker. *)
Lemma raw_identity_rendered_verbatim :
  ev_bot_id (Sample.reply_of "W012AB3CD" "draw") = None /\
  actor (Sample.reply_of "W012AB3CD" "draw") = "W012AB3CD" /\
  mention (actor (Sample.reply_of "W012AB3CD" "draw")) <> "<@W012AB3CD>" /\
  map (fun pr => String.prefix "W012AB3CD " (mp_text (fst pr)))
    (posted (effects (handleMessageEvent Sample.channel Sample.cards
                        Sample.transcript Sample.accepting
                        (Sample.reply_of "W012AB3CD" "draw") Sample.playing))) =
    [true; true].
Proof.
  split; [reflexivity|]. split; [reflexivity|]. split; [discriminate|].
  vm_compute. reflexivity.
Qed.

Lemma draw_errors_are_caught_witness :
  result (drawCard_try Sample.channel Sample.cards Sample.transcript Sample.refusing
            "1700000000.000300" "U1" (mention "U1")
            (final (react Sample.channel Sample.refusing
                      "1700000000.000300" "beachball" true Sample.playing))) =
    Throw (GatewayError "channel_not_found") /\
  result (drawCard Sample.channel Sample.cards Sample.transcript Sample.refusing
            "1700000000.000300" "U1" Sample.playing) =
    Throw (GatewayError "channel_not_found") /\
  result (handleMessageEvent Sample.channel Sample.cards Sample.transcript
            Sample.refusing (Sample.reply_of "U1" "draw") Sample.playing) =
    Return tt.
Proof.
  destruct (draw_errors_are_caught Sample.channel Sample.cards Sample.transcript
              Sample.refusing) as (Hdraw & Hhandle & _).
  split; [reflexivity|]. split.
  - apply (Hdraw "1700000000.000300" "U1" Sample.playing
             (GatewayError "channel_not_found") eq_refl).
  - apply Hhandle.
Defined.

Lemma drawCard_draws_fresh_card_witness :
  (forall n, in_unit_interval (Math_random Sample.accepting n)) /\
  In (KvGet "user_hand:U1" (Some (VArr [VStr "magician"])))
     (store_ops (effects (drawCard Sample.channel Sample.cards Sample.transcript
                            Sample.accepting "1700000000.000300" "U1"
                            Sample.holding))) /\
  (In "fool" (map fst Sample.cards) /\ ~ In (VStr "fool") [VStr "magician"]) /\
  exists c,
    In c (map fst Sample.cards) /\
    ~ In (VStr c) [VStr "magician"] /\
    kv_store (final (drawCard Sample.channel Sample.cards Sample.transcript
                       Sample.accepting "1700000000.000300" "U1" Sample.holding))
      !! "user_hand:U1" =
      Some {| kv_value := VArr ([VStr "magician"] ++ [VStr c]); kv_expires := None |} /\
    NoDup ([VStr "magician"] ++ [VStr c]).
Proof.
  assert (Hrand : forall n, in_unit_interval (Math_random Sample.accepting n)).
  { intros n. split; reflexivity. }
  assert (Hin : In (KvGet "user_hand:U1" (Some (VArr [VStr "magician"])))
                  (store_ops (effects (drawCard Sample.channel Sample.cards
                                         Sample.transcript Sample.accepting
                                         "1700000000.000300" "U1" Sample.holding)))).
  { vm_compute. auto 10. }
  assert (Hfool : In "fool" (map fst Sample.cards) /\
                  ~ In (VStr "fool") [VStr "magician"]).
  { split; [simpl; auto|]. intros [H|[]]. discriminate H. }
  assert (Hnd : NoDup [VStr "magician"]).
  { apply NoDup_cons. split; [intros H; inversion H|apply NoDup_nil; exact I]. }
  split; [exact Hrand|]. split; [exact Hin|]. split; [exact Hfool|].
  destruct (drawCard_draws_fresh_card Sample.channel Sample.cards Sample.transcript
              Sample.accepting "1700000000.000300" "U1" Sample.holding
              (Some (VArr [VStr "magician"])) [VStr "magician"]
              Hrand Hin (or_introl eq_refl) (ex_intro _ "fool" Hfool))
    as (_ & c & u & Hc & Hfresh & _ & Hstore & Hkeep).
  exists c. split; [exact Hc|]. split; [exact Hfresh|]. split; [exact Hstore|].
  exact (Hkeep Hnd).
Defined.

Lemma drawCard_too_soon_witness :
  "1700000000.000300" <> EmptyString /\
  In (KvGet (cooldown_key "U1") (Some (VBool true)))
     (store_ops (effects (drawCard Sample.channel Sample.cards Sample.transcript
                            Sample.accepting "1700000000.000300" "U1"
                            Sample.cooling))) /\
  truthy_opt (Some (VBool true)) = true /\
  store_ops (effects (drawCard Sample.channel Sample.cards Sample.transcript
                        Sample.accepting "1700000000.000300" "U1" Sample.cooling)) =
    [KvGet (cooldown_key "U1") (Some (VBool true))] /\
  kv_store (final (drawCard Sample.channel Sample.cards Sample.transcript
                     Sample.accepting "1700000000.000300" "U1" Sample.cooling)) =
    kv_store Sample.cooling.
Proof.
  assert (Hts : "1700000000.000300" <> EmptyString) by discriminate.
  assert (Hin : In (KvGet (cooldown_key "U1") (Some (VBool true)))
                  (store_ops (effects (drawCard Sample.channel Sample.cards
                                         Sample.transcript Sample.accepting
                                         "1700000000.000300" "U1" Sample.cooling)))).
  { vm_compute. auto 10. }
  split; [exact Hts|]. split; [exact Hin|]. split; [reflexivity|].
  destruct (drawCard_too_soon Sample.channel Sample.cards Sample.transcript
              Sample.accepting "1700000000.000300" "U1" Sample.cooling
              (Some (VBool true)) Hts Hin eq_refl)
    as (Hops & Hstore & _).
  split; [exact Hops|exact Hstore].
Defined.

Lemma drawCard_commits_cooldown_witness :
  kv_lookup 5120 (kv_store Sample.cooling) "card_draw:U1" = Some (VBool true) /\
  (exists rest,
     store_ops (effects (drawCard Sample.channel Sample.cards Sample.transcript
                           Sample.accepting "1700000000.000300" "U2"
                           Sample.cooling)) =
       KvGet "card_draw:U2" None :: rest) /\
  truthy_opt None = false /\
  (exists hand_found rest',
     store_ops (effects (drawCard Sample.channel Sample.cards Sample.transcript
                           Sample.accepting "1700000000.000300" "U2"
                           Sample.cooling)) =
       KvGet "card_draw:U2" None
       :: KvSet "card_draw:U2" (VBool true) (Some 30000%Z)
       :: KvGet "user_hand:U2" hand_found
       :: rest') /\
  exists t,
    kv_store (final (drawCard Sample.channel Sample.cards Sample.transcript
                       Sample.accepting "1700000000.000300" "U2" Sample.cooling))
      !! "card_draw:U2" =
      Some {| kv_value := VBool true; kv_expires := Some (t + 30000)%Z |}.
Proof.
  assert (Hops : exists rest,
            store_ops (effects (drawCard Sample.channel Sample.cards
                                  Sample.transcript Sample.accepting
                                  "1700000000.000300" "U2" Sample.cooling)) =
              KvGet "card_draw:U2" None :: rest).
  { eexists. vm_compute. reflexivity. }
  split; [reflexivity|]. split; [exact Hops|]. split; [reflexivity|].
  destruct Hops as [rest Hops].
  destruct (drawCard_commits_cooldown Sample.channel Sample.cards Sample.transcript
              Sample.accepting "1700000000.000300" "U2" Sample.cooling _ _ Hops)
    as (now & found & _ & _ & Hfirst & Hwrite).
  injection Hfirst as Hfound.
  rewrite <- Hfound in Hwrite.
  destruct (Hwrite eq_refl) as ((hand_found & rest' & Hrest) & t & Hstore & _).
  split.
  - exists hand_found, rest'. rewrite Hops, Hrest. reflexivity.
  - exists t. exact Hstore.
Defined.

Lemma drawCard_exhausted_witness :
  In (KvGet (hand_key "U1") (Some (VArr [VStr "magician"; VStr "fool"])))
     (store_ops (effects (drawCard Sample.channel Sample.cards Sample.transcript
                            Sample.accepting "1700000000.000300" "U1"
                            Sample.exhausted))) /\
  read_hand (Some (VArr [VStr "magician"; VStr "fool"])) =
    Some [VStr "magician"; VStr "fool"] /\
  availableCards Sample.cards [VStr "magician"; VStr "fool"] = [] /\
  card_of Sample.cards "undefined" = None /\
  result (drawCard Sample.channel Sample.cards Sample.transcript Sample.accepting
            "1700000000.000300" "U1" Sample.exhausted) =
    Throw (TypeError "undefined is not an object (evaluating 'chosenCard.name')") /\
  kv_store (final (drawCard Sample.channel Sample.cards Sample.transcript
                     Sample.accepting "1700000000.000300" "U1" Sample.exhausted))
    !! hand_key "U1" =
    Some {| kv_value := VArr ([VStr "magician"; VStr "fool"] ++ [VUndefined]);
            kv_expires := None |}.
Proof.
  assert (Hin : In (KvGet (hand_key "U1") (Some (VArr [VStr "magician"; VStr "fool"])))
                  (store_ops (effects (drawCard Sample.channel Sample.cards
                                         Sample.transcript Sample.accepting
                                         "1700000000.000300" "U1" Sample.exhausted)))).
  { vm_compute. auto 10. }
  split; [exact Hin|]. do 3 (split; [reflexivity|]).
  destruct (drawCard_exhausted Sample.channel Sample.cards Sample.transcript
              Sample.accepting "1700000000.000300" "U1" Sample.exhausted
              (Some (VArr [VStr "magician"; VStr "fool"]))
              [VStr "magician"; VStr "fool"] Hin eq_refl eq_refl eq_refl)
    as (_ & Hstore & Hres & _).
  split; [exact Hres|exact Hstore].
Defined.

(** C9 as stated fails: on the exhausted hand nothing is announced.  The only
    message posted is the opening one; [drawCard] raises, and the handler of
    the event logs the error. *)
Lemma exhausted_draw_not_announced :
  availableCards Sample.cards [VStr "magician"; VStr "fool"] = [] /\
  kv_lookup (clock Sample.exhausted) (kv_store Sample.exhausted) (hand_key "U1") =
    Some (VArr [VStr "magician"; VStr "fool"]) /\
  map (fun pr => mp_text (fst pr))
    (posted (effects (drawCard Sample.channel Sample.cards Sample.transcript
                        Sample.accepting "1700000000.000300" "U1"
                        Sample.exhausted))) =
    ["<@U1> drawing.start..."] /\
  result (drawCard Sample.channel Sample.cards Sample.transcript Sample.accepting
            "1700000000.000300" "U1" Sample.exhausted) =
    Throw (TypeError "undefined is not an object (evaluating 'chosenCard.name')") /\
  errors_logged
    (effects (handleMessageEvent Sample.channel Sample.cards Sample.transcript
                Sample.accepting (Sample.reply_of "U1" "draw") Sample.exhausted)) =
    ["Error in drawCard:"; "Error handling message event:"].
Proof.
  repeat split; vm_compute; reflexivity.
Qed.

Lemma drawCard_failed_announcement_witness :
  In (KvSet (hand_key "U1") (VArr [VStr "magician"]) None)
     (store_ops (effects (drawCard Sample.channel Sample.cards Sample.transcript
                            Sample.refusing_announcements "1700000000.000300" "U1"
                            Sample.playing))) /\
  result (drawCard Sample.channel Sample.cards Sample.transcript
            Sample.refusing_announcements "1700000000.000300" "U1" Sample.playing) =
    Throw (GatewayError "ratelimited") /\
  kv_store (final (drawCard Sample.channel Sample.cards Sample.transcript
                     Sample.refusing_announcements "1700000000.000300" "U1"
                     Sample.playing)) !! hand_key "U1" =
    Some {| kv_value := VArr [VStr "magician"]; kv_expires := None |} /\
  exists t,
    kv_store (final (drawCard Sample.channel Sample.cards Sample.transcript
                       Sample.refusing_announcements "1700000000.000300" "U1"
                       Sample.playing)) !! cooldown_key "U1" =
      Some {| kv_value := VBool true; kv_expires := Some (t + 30000)%Z |}.
Proof.
  assert (Hset : In (KvSet (hand_key "U1") (VArr [VStr "magician"]) None)
                   (store_ops (effects (drawCard Sample.channel Sample.cards
                                          Sample.transcript
                                          Sample.refusing_announcements
                                          "1700000000.000300" "U1" Sample.playing)))).
  { vm_compute. auto 10. }
  assert (Hpost :
    In (send_params Sample.channel
          (announcement "<@U1>"
             {| card_name := "Magician"; card_requirements := "a wand" |}
             "cards.magician.flavor")
          (Some "1700000000.000300") None,
        {| elapsed := 120; answer := PostFail (GatewayError "ratelimited") |})
       (posted (effects (drawCard Sample.channel Sample.cards Sample.transcript
                           Sample.refusing_announcements "1700000000.000300" "U1"
                           Sample.playing)))).
  { vm_compute. auto 10. }
  split; [exact Hset|].
  destruct (drawCard_failed_announcement Sample.channel Sample.cards
              Sample.transcript Sample.refusing_announcements
              "1700000000.000300" "U1" Sample.playing [VStr "magician"]
              _ _ (GatewayError "ratelimited") Hset Hpost eq_refl)
    as (Hres & _ & _ & _ & Hhand & t & Hcool & _).
  split; [exact Hres|]. split; [exact Hhand|]. exists t. exact Hcool.
Defined.

(** Two exhausted draws in a row, forty seconds apart, leave [undefined]
    twice in the stored hand. *)
Lemma exhausted_draws_repeat :
  kv_lookup 0
    (kv_store
       (final (drawCard Sample.channel Sample.cards Sample.transcript Sample.accepting
                 "1700000000.000500" "U1"
                 (later 40000
                    (final (drawCard Sample.channel Sample.cards Sample.transcript
                              Sample.accepting "1700000000.000300" "U1"
                              Sample.exhausted))))))
    (hand_key "U1") =
    Some (VArr [VStr "magician"; VStr "fool"; VUndefined; VUndefined]).
Proof. vm_compute. reflexivity. Qed.

(** ** Reactions do not weigh on the draw *)

(** X19.  The outcome of the reaction does not weigh on the draw: with a
    gateway that answers the requests for reactions in any other way, and all
    else alike, [drawCard] has the same result, ends in the same state, and
    makes the same posts and the same accesses to the store. *)
Theorem drawCard_ignores_reaction_outcome
    channelId cards transcript env reactions messageTs username w :
  let env' := {| chat_postMessage := chat_postMessage env;
                 reactions_call := reactions;
                 Bun_write := Bun_write env;
                 Math_random := Math_random env |} in
  result (drawCard channelId cards transcript env' messageTs username w) =
    result (drawCard channelId cards transcript env messageTs username w) /\
  final (drawCard channelId cards transcript env' messageTs username w) =
    final (drawCard channelId cards transcript env messageTs username w) /\
  posted (effects (drawCard channelId cards transcript env' messageTs username w)) =
    posted (effects (drawCard channelId cards transcript env messageTs username w)) /\
  store_ops (effects (drawCard channelId cards transcript env' messageTs username w)) =
    store_ops (effects (drawCard channelId cards transcript env messageTs username w)).
Proof.
  intros env'.
  destruct (drawCard_observed channelId cards transcript env' messageTs username w)
    as (-> & -> & -> & ->).
  destruct (drawCard_observed channelId cards transcript env messageTs username w)
    as (-> & -> & -> & ->).
  assert (Hsame : drawCard_try channelId cards transcript env' messageTs username
                    (mention username) (asked 0 w) =
                  drawCard_try channelId cards transcript env messageTs username
                    (mention username) (asked 0 w)).
  { subst env'. destruct env. reflexivity. }
  rewrite Hsame. auto.
Qed.

(** ** The further properties on the sample data *)

(** A write that fails goes unnoticed: [sendMessage] returns the reply of the
    gateway, the root message in memory is the new one, the file keeps the
    former one, and no error is logged. *)
Lemma failed_write_goes_unnoticed :
  result (sendMessage Sample.channel Sample.read_only_disk "joker" None None
            Sample.playing) = Return Sample.accepted /\
  rootMessage (final (sendMessage Sample.channel Sample.read_only_disk "joker" None None
                        Sample.playing)) =
    Some {| root_channelId := Sample.channel; root_messageTs := "1700000000.000200" |} /\
  rootfile (final (sendMessage Sample.channel Sample.read_only_disk "joker" None None
                     Sample.playing)) = Sample.root /\
  written (effects (sendMessage Sample.channel Sample.read_only_disk "joker" None None
                      Sample.playing)) =
    [(Some {| root_channelId := Sample.channel;
              root_messageTs := "1700000000.000200" |}, false)] /\
  errors_logged (effects (sendMessage Sample.channel Sample.read_only_disk "joker" None
                            None Sample.playing)) = [].
Proof. repeat split; vm_compute; reflexivity. Qed.

Lemma other_channel_is_ignored_witness :
  ev_channel (Sample.elsewhere "U1" "DRAW") <> Sample.channel /\
  final (handleMessageEvent Sample.channel Sample.cards Sample.transcript
           Sample.accepting (Sample.elsewhere "U1" "DRAW") Sample.playing) =
    Sample.playing.
Proof.
  assert (Hch : ev_channel (Sample.elsewhere "U1" "DRAW") <> Sample.channel)
    by discriminate.
  split; [exact Hch|].
  apply (other_channel_is_ignored Sample.channel Sample.cards Sample.transcript
           Sample.accepting (Sample.elsewhere "U1" "DRAW") Sample.playing Hch).
Defined.

Lemma other_thread_is_ignored_witness :
  ev_channel (Sample.reply_in "1600000000.000001" "U1" "DRAW") = Sample.channel /\
  ev_thread_ts (Sample.reply_in "1600000000.000001" "U1" "DRAW") <>
    Some Sample.root_ts /\
  final (handleMessageEvent Sample.channel Sample.cards Sample.transcript
           Sample.accepting (Sample.reply_in "1600000000.000001" "U1" "DRAW")
           Sample.playing) =
    Sample.playing.
Proof.
  assert (Hth : ev_thread_ts (Sample.reply_in "1600000000.000001" "U1" "DRAW") <>
                Some Sample.root_ts) by discriminate.
  split; [reflexivity|]. split; [exact Hth|].
  apply (other_thread_is_ignored Sample.channel Sample.cards Sample.transcript
           Sample.accepting (Sample.reply_in "1600000000.000001" "U1" "DRAW")
           Sample.playing eq_refl Hth).
Defined.

Lemma sendMessage_failure_witness :
  result (sendMessage Sample.channel Sample.refusing "joker" None None Sample.playing) =
    Throw (GatewayError "channel_not_found") /\
  rootMessage (final (sendMessage Sample.channel Sample.refusing "joker" None None
                        Sample.playing)) =
    rootMessage Sample.playing.
Proof.
  split; [reflexivity|].
  apply (sendMessage_failure Sample.channel Sample.refusing "joker" None None
           Sample.playing (GatewayError "channel_not_found") eq_refl).
Defined.

Lemma saved_root_message_is_loaded_witness :
  truthy_str None = false /\
  result (sendMessage Sample.channel Sample.accepting "joker" None None Sample.fresh) =
    Return Sample.accepted /\
  In (Some {| root_channelId := Sample.channel;
              root_messageTs := "1700000000.000200" |}, true)
     (written (effects (sendMessage Sample.channel Sample.accepting "joker" None None
                          Sample.fresh))) /\
  Sample.readable
    (steps (later 60000
              (final (sendMessage Sample.channel Sample.accepting "joker" None None
                        Sample.fresh)))) = true /\
  result (loadRootMessage Sample.readable
            (later 60000
               (final (sendMessage Sample.channel Sample.accepting "joker" None None
                         Sample.fresh)))) =
    Return (Some {| root_channelId := Sample.channel;
                    root_messageTs := "1700000000.000200" |}).
Proof.
  assert (Hin : In (Some {| root_channelId := Sample.channel;
                            root_messageTs := "1700000000.000200" |}, true)
                  (written (effects (sendMessage Sample.channel Sample.accepting
                                       "joker" None None Sample.fresh)))).
  { left. reflexivity. }
  split; [reflexivity|]. split; [reflexivity|]. split; [exact Hin|].
  split; [reflexivity|].
  apply (saved_root_message_is_loaded Sample.channel Sample.accepting Sample.readable
           "joker" None None Sample.fresh Sample.accepted _
           (later 60000
              (final (sendMessage Sample.channel Sample.accepting "joker" None None
                        Sample.fresh)))
           eq_refl eq_refl Hin eq_refl eq_refl).
Defined.

Lemma initialMessage_opens_the_thread_witness :
  result (initialMessage Sample.channel Sample.accepting Sample.fresh) =
    Return Sample.accepted /\
  res_ts Sample.accepted <> EmptyString /\
  rootMessage (final (initialMessage Sample.channel Sample.accepting Sample.fresh)) =
    Some {| root_channelId := Sample.channel;
            root_messageTs := "1700000000.000200" |} /\
  (clock Sample.fresh + 9000 <=
   clock (final (initialMessage Sample.channel Sample.accepting Sample.fresh)))%Z.
Proof.
  assert (Hts : res_ts Sample.accepted <> EmptyString) by discriminate.
  split; [reflexivity|]. split; [exact Hts|].
  destruct (initialMessage_opens_the_thread Sample.channel Sample.accepting
              Sample.fresh Sample.accepted eq_refl Hts)
    as (_ & Hroot & Hclock & _).
  split; [exact Hroot|exact Hclock].
Defined.

Lemma initialMessage_echo_draws_for_the_fool_witness :
  result (initialMessage Sample.channel Sample.accepting Sample.fresh) =
    Return Sample.accepted /\
  res_ts Sample.accepted <> EmptyString /\
  ev_thread_ts (Sample.echo "1700000000.000200" "DRAW") =
    Some (res_ts Sample.accepted) /\
  truthy_str (ev_bot_id (Sample.echo "1700000000.000200" "DRAW")) = true /\
  exists ok rest,
    effects (handleMessageEvent Sample.channel Sample.cards Sample.transcript
               Sample.accepting (Sample.echo "1700000000.000200" "DRAW")
               (final (initialMessage Sample.channel Sample.accepting Sample.fresh))) =
      ConsoleLog "Received message event:"
      :: ConsoleLog "DRAW command detected, calling drawCard with messageTs:"
      :: Reaction (beachball Sample.channel "1700000000.000400") ok
      :: rest.
Proof.
  assert (Hts : res_ts Sample.accepted <> EmptyString) by discriminate.
  split; [reflexivity|]. split; [exact Hts|]. do 2 (split; [reflexivity|]).
  apply (initialMessage_echo_draws_for_the_fool Sample.channel Sample.cards
           Sample.transcript Sample.accepting Sample.fresh Sample.accepted
           (Sample.echo "1700000000.000200" "DRAW")
           eq_refl Hts eq_refl eq_refl eq_refl eq_refl).
Defined.

Lemma initialMessage_failure_witness :
  result (initialMessage Sample.channel Sample.refusing Sample.playing) =
    Throw (GatewayError "channel_not_found") /\
  store_ops (effects (initialMessage Sample.channel Sample.refusing Sample.playing)) =
    [] /\
  exists before,
    errors_logged
      (effects (initialMessage Sample.channel Sample.refusing Sample.playing)) =
      (before ++ ["Error sending message to Slack:";
                  "Error sending initial message:"])%list.
Proof.
  split; [reflexivity|].
  destruct (initialMessage_failure Sample.channel Sample.refusing Sample.playing
              (GatewayError "channel_not_found") eq_refl)
    as (_ & Hlog & Hops & _).
  split; [exact Hops|exact Hlog].
Defined.

Lemma drawCard_touches_only_the_actor_witness :
  "U1" <> "U2" /\
  kv_store (final (drawCard Sample.channel Sample.cards Sample.transcript
                     Sample.accepting "1700000000.000300" "U2" Sample.cooling))
    !! hand_key "U1" =
    kv_store Sample.cooling !! hand_key "U1".
Proof.
  assert (Hne : "U1" <> "U2") by discriminate.
  split; [exact Hne|].
  apply (proj2 (drawCard_touches_only_the_actor Sample.channel Sample.cards
                  Sample.transcript Sample.accepting "1700000000.000300" "U2"
                  Sample.cooling) "U1" Hne).
Defined.

Lemma handleMessageEvent_keeps_the_root_message_witness :
  ev_ts (Sample.reply_of "U1" "draw") <> EmptyString /\
  rootMessage (final (handleMessageEvent Sample.channel Sample.cards
                        Sample.transcript Sample.accepting
                        (Sample.reply_of "U1" "draw") Sample.playing)) =
    rootMessage Sample.playing.
Proof.
  assert (Hts : ev_ts (Sample.reply_of "U1" "draw") <> EmptyString) by discriminate.
  split; [exact Hts|].
  apply (proj1 (handleMessageEvent_keeps_the_root_message Sample.channel Sample.cards
                  Sample.transcript Sample.accepting)
           (Sample.reply_of "U1" "draw") Sample.playing Hts).
Defined.

Lemma refused_opening_costs_nothing_witness :
  posted (effects (drawCard Sample.channel Sample.cards Sample.transcript
                     Sample.refusing "1700000000.000300" "U1" Sample.playing)) =
    [(send_params Sample.channel "<@U1> drawing.start..."
        (Some "1700000000.000300") None,
      {| elapsed := 120; answer := PostFail (GatewayError "channel_not_found") |})] /\
  result (drawCard Sample.channel Sample.cards Sample.transcript Sample.refusing
            "1700000000.000300" "U1" Sample.playing) =
    Throw (GatewayError "channel_not_found") /\
  kv_store (final (drawCard Sample.channel Sample.cards Sample.transcript
                     Sample.refusing "1700000000.000300" "U1" Sample.playing)) =
    kv_store Sample.playing.
Proof.
  assert (Hposted :
    posted (effects (drawCard Sample.channel Sample.cards Sample.transcript
                       Sample.refusing "1700000000.000300" "U1" Sample.playing)) =
      [(send_params Sample.channel "<@U1> drawing.start..."
          (Some "1700000000.000300") None,
        {| elapsed := 120;
           answer := PostFail (GatewayError "channel_not_found") |})]).
  { vm_compute. reflexivity. }
  split; [exact Hposted|].
  destruct (refused_opening_costs_nothing Sample.channel Sample.cards
              Sample.transcript Sample.refusing "1700000000.000300" "U1"
              Sample.playing _ _ _ (GatewayError "channel_not_found")
              Hposted eq_refl)
    as (Hres & _ & _ & Hstore).
  split; [exact Hres|exact Hstore].
Defined.

Lemma announced_card_is_recorded_card_witness :
  In (KvSet (hand_key "U1") (VArr [VStr "magician"; VStr "fool"]) None)
     (store_ops (effects (drawCard Sample.channel Sample.cards Sample.transcript
                            Sample.accepting "1700000000.000300" "U1"
                            Sample.holding))) /\
  result (drawCard Sample.channel Sample.cards Sample.transcript Sample.accepting
            "1700000000.000300" "U1" Sample.holding) = Return tt /\
  exists hand_found u picked card reply0 reply1,
    In (KvGet (hand_key "U1") hand_found)
       (store_ops (effects (drawCard Sample.channel Sample.cards Sample.transcript
                              Sample.accepting "1700000000.000300" "U1"
                              Sample.holding))) /\
    [VStr "magician"; VStr "fool"] =
      (match hand_found with Some (VArr stored) => stored | _ => [] end
       ++ [key_to_value picked])%list /\
    picked =
      pick (availableCards Sample.cards
              match hand_found with Some (VArr stored) => stored | _ => [] end) u /\
    card_of Sample.cards (key_to_string picked) = Some card /\
    posted (effects (drawCard Sample.channel Sample.cards Sample.transcript
                       Sample.accepting "1700000000.000300" "U1" Sample.holding)) =
      [(send_params Sample.channel
          (mention "U1" ++ " " ++ Sample.transcript "drawing.start" ++ "...")
          (Some "1700000000.000300") None, reply0);
       (send_params Sample.channel
          (announcement (mention "U1") card
             (Sample.transcript ("cards." ++ key_to_string picked ++ ".flavor")))
          (Some "1700000000.000300") None, reply1)].
Proof.
  assert (Hset : In (KvSet (hand_key "U1") (VArr [VStr "magician"; VStr "fool"]) None)
                   (store_ops (effects (drawCard Sample.channel Sample.cards
                                          Sample.transcript Sample.accepting
                                          "1700000000.000300" "U1" Sample.holding)))).
  { vm_compute. auto 10. }
  split; [exact Hset|]. split; [reflexivity|].
  destruct (announced_card_is_recorded_card Sample.channel Sample.cards
              Sample.transcript Sample.accepting "1700000000.000300" "U1"
              Sample.holding [VStr "magician"; VStr "fool"] Hset eq_refl)
    as (hand_found & u & picked & card & reply0 & reply1 & H0 & H1 & H2 & _ & H4 & H5).
  exists hand_found, u, picked, card, reply0, reply1. auto 7.
Defined.

Lemma drawCard_writes_witness :
  In (KvSet (hand_key "U1") (VArr [VStr "magician"]) None)
     (store_ops (effects (drawCard Sample.channel Sample.cards Sample.transcript
                            Sample.accepting "1700000000.000300" "U1"
                            Sample.playing))) /\
  ((hand_key "U1" = cooldown_key "U1" /\
    VArr [VStr "magician"] = VBool true /\ @None Z = Some 30000%Z) \/
   (hand_key "U1" = hand_key "U1" /\ @None Z = None /\
    exists hand_found hand x,
      In (KvGet (hand_key "U1") hand_found)
         (store_ops (effects (drawCard Sample.channel Sample.cards Sample.transcript
                                Sample.accepting "1700000000.000300" "U1"
                                Sample.playing))) /\
      read_hand hand_found = Some hand /\
      VArr [VStr "magician"] = VArr (hand ++ [x]))).
Proof.
  assert (Hset : In (KvSet (hand_key "U1") (VArr [VStr "magician"]) None)
                   (store_ops (effects (drawCard Sample.channel Sample.cards
                                          Sample.transcript Sample.accepting
                                          "1700000000.000300" "U1" Sample.playing)))).
  { vm_compute. auto 10. }
  split; [exact Hset|].
  apply (drawCard_writes Sample.channel Sample.cards Sample.transcript
           Sample.accepting "1700000000.000300" "U1" Sample.playing _ _ _ Hset).
Defined.

Lemma second_draw_and_the_cooldown_witness :
  In (KvSet (cooldown_key "U1") (VBool true) (Some 30000%Z))
     (store_ops (effects (drawCard Sample.channel Sample.cards Sample.transcript
                            Sample.accepting "1700000000.000300" "U1"
                            Sample.playing))) /\
  answer (chat_postMessage Sample.accepting
            (S (steps (later 10000
                         (final (drawCard Sample.channel Sample.cards
                                   Sample.transcript Sample.accepting
                                   "1700000000.000300" "U1" Sample.playing)))))
            (send_params Sample.channel
               (mention "U1" ++ " " ++ Sample.transcript "drawing.start" ++ "...")
               (Some "1700000000.000500") None)) = PostOk Sample.accepted /\
  exists t now,
    (clock Sample.playing <= t)%Z /\
    ((now < t + 30000)%Z ->
     store_ops
       (effects (drawCard Sample.channel Sample.cards Sample.transcript
                   Sample.accepting "1700000000.000500" "U1"
                   (later 10000
                      (final (drawCard Sample.channel Sample.cards
                                Sample.transcript Sample.accepting
                                "1700000000.000300" "U1" Sample.playing))))) =
       [KvGet (cooldown_key "U1") (Some (VBool true))]).
Proof.
  assert (Hset : In (KvSet (cooldown_key "U1") (VBool true) (Some 30000%Z))
                   (store_ops (effects (drawCard Sample.channel Sample.cards
                                          Sample.transcript Sample.accepting
                                          "1700000000.000300" "U1" Sample.playing)))).
  { vm_compute. auto 10. }
  split; [exact Hset|]. split; [reflexivity|].
  destruct (second_draw_and_the_cooldown Sample.channel Sample.cards
              Sample.transcript Sample.accepting
              "1700000000.000300" "1700000000.000500" "U1" Sample.playing
              (later 10000
                 (final (drawCard Sample.channel Sample.cards Sample.transcript
                           Sample.accepting "1700000000.000300" "U1"
                           Sample.playing)))
              Sample.accepted Hset eq_refl eq_refl)
    as (t & now & Ht & _ & Hblock & _).
  exists t, now. split; [apply Ht|]. intros Hlt. apply Hblock, Hlt.
Defined.

Lemma draw_command_texts_witness :
  ev_channel (Sample.reply_of "U1" "  dRaW ") = Sample.channel /\
  strict_equal (ev_thread_ts (Sample.reply_of "U1" "  dRaW "))
    (option_map root_messageTs (rootMessage Sample.playing)) = true /\
  exists ok,
    In (Reaction (beachball Sample.channel "1700000000.000300") ok)
       (effects (handleMessageEvent Sample.channel Sample.cards Sample.transcript
                   Sample.accepting (Sample.reply_of "U1" "  dRaW ")
                   Sample.playing)).
Proof.
  do 2 (split; [reflexivity|]).
  apply (draw_command_texts Sample.channel Sample.cards Sample.transcript
           Sample.accepting (Sample.reply_of "U1" "  dRaW ") Sample.playing
           eq_refl eq_refl).
  exists "  ", " ", "d"%char, "R"%char, "a"%char, "W"%char.
  repeat split; auto.
Defined.

Lemma new_root_message_retargets_the_router_witness :
  truthy_str None = false /\
  result (sendMessage Sample.channel Sample.accepting "joker" None None
            Sample.playing) = Return Sample.accepted /\
  ev_thread_ts (Sample.reply_of "U1" "DRAW") <> Some (res_ts Sample.accepted) /\
  effects (handleMessageEvent Sample.channel Sample.cards Sample.transcript
             Sample.accepting (Sample.reply_of "U1" "DRAW")
             (final (sendMessage Sample.channel Sample.accepting "joker" None None
                       Sample.playing))) =
    [ConsoleLog "Received message event:";
     ConsoleLog "Message is not in our thread, ignoring"].
Proof.
  assert (Hne : ev_thread_ts (Sample.reply_of "U1" "DRAW") <>
                Some (res_ts Sample.accepted)) by discriminate.
  do 2 (split; [reflexivity|]). split; [exact Hne|].
  apply (proj1 (new_root_message_retargets_the_router Sample.channel Sample.cards
                  Sample.transcript Sample.accepting "joker" None None
                  Sample.playing Sample.accepted (Sample.reply_of "U1" "DRAW")
                  eq_refl eq_refl eq_refl) Hne).
Defined.

Lemma drawCard_messages_are_threaded_witness :
  "1700000000.000300" <> EmptyString /\
  forall p reply,
    In (p, reply)
       (posted (effects (drawCard Sample.channel Sample.cards Sample.transcript
                           Sample.accepting "1700000000.000300" "U1"
                           Sample.playing))) ->
    mp_channel p = Sample.channel /\
    mp_thread_ts p = Some "1700000000.000300" /\
    mp_username p = None.
Proof.
  assert (Hts : "1700000000.000300" <> EmptyString) by discriminate.
  split; [exact Hts|].
  apply (proj2 (drawCard_messages_are_threaded Sample.channel Sample.cards
                  Sample.transcript Sample.accepting "1700000000.000300" "U1"
                  Sample.playing Hts)).
Defined.
